(** * django.template.loader: template resolution over a chain of loaders

    A shallow embedding of [django/template/loader.py]: the loader registry
    ([get_template_source_loaders], [find_template_loader]), the resolver
    ([find_template]) with its skip filter ([skip_loaders]), the class based
    loader ([BaseLoader.load_template]) and the facade ([get_template],
    [select_template], [render_to_string]).

    Python code that raises and mutates is written in a state monad in which a
    raised exception still carries the state reached so far, as the side
    effects of a Python call survive the exception it ends with.  The
    collaborators of the module (loaders, importer, compiler, renderer) are
    the fields of a class, so that the module can be run on concrete ones. *)

From Stdlib Require Import List String Bool Arith Lia.
Import ListNotations.
Local Open Scope string_scope.
Local Open Scope list_scope.

(** ** Exceptions and results *)

(** The exceptions the module distinguishes.  [TemplateDoesNotExist] carries
    [e.args[0]]; everything the module neither raises nor catches itself
    (I/O errors of a loader, [IndexError], ...) is an [OtherError]. *)
Inductive Exn : Type :=
| TemplateDoesNotExist (args0 : string)
| ImproperlyConfigured (msg : string)
| NotImplementedError (msg : string)
| OtherError (kind : string).

Inductive Res (A : Type) : Type :=
| Ret (a : A)
| Raise (e : Exn).
Arguments Ret {A} a.
Arguments Raise {A} e.

Definition is_TemplateDoesNotExist (e : Exn) : bool :=
  match e with TemplateDoesNotExist _ => true | _ => false end.

(** ** Loaders as objects *)

(** A loader object: an instance of a loader class, or a function used as
    a loader.  [oid] is its identity (what [is] compares).  [is_usable] is
    the attribute every loader is asked to set.  [use_skip_template] and
    [never_skip] are the class attributes [BaseLoader] declares: an instance
    of a loader class has them, a plain function has them only if they were
    set on it, so either may be absent ([None]).  [eq_key] tells what [==]
    does: [None] when the class of the object defines no [__eq__], as
    [BaseLoader] and functions do not, so that [==] is identity;
    [Some k] when the class defines [__eq__] on the configuration [k] of its
    instances. *)
Record LoaderObject : Type := mkLoaderObject {
  oid : nat;
  is_usable : bool;
  use_skip_template : option bool;
  never_skip : option bool;
  eq_key : option nat
}.

(** What may sit in a loader chain or in an origin: a loader object itself,
    or a bound method of one (as [self.load_template_source] in
    [BaseLoader.load_template]), which exposes the object as [__self__]. *)
Inductive Loader : Type :=
| Obj (i : LoaderObject)
| Method (self : LoaderObject) (attr : string).

(** [getattr(loader, '__self__', loader)] *)
Definition getattr___self__ (loader : Loader) : Loader :=
  match loader with
  | Method self _ => Obj self
  | Obj _ => loader
  end.

(** The object behind a loader reference, one level down. *)
Definition instance_of (loader : Loader) : LoaderObject :=
  match loader with
  | Obj i => i
  | Method self _ => self
  end.



(** [i == j] on loader objects: the same object, or two objects whose
    classes define [__eq__] and whose configurations agree. *)
Definition object_eq (i j : LoaderObject) : bool :=
  Nat.eqb (oid i) (oid j)
  || match eq_key i, eq_key j with
     | Some k, Some k' => Nat.eqb k k'
     | _, _ => false
     end.

(** [a == b] on loader references; bound methods compare their [__self__]
    and the function they bind. *)
Definition py_eq (a b : Loader) : bool :=
  match a, b with
  | Obj i, Obj j => object_eq i j
  | Method i f, Method j g => object_eq i j && String.eqb f g
  | _, _ => false
  end.

(** [loader == loader_to_skip], where [loader_to_skip] may be [None]. *)
Definition py_eq_opt (a : Loader) (b : option Loader) : bool :=
  match b with
  | Some b' => py_eq a b'
  | None => false
  end.

(** ** Origins and skip markers *)

Definition Dirs : Type := option (list string).

(** [LoaderOrigin]: the display name with the loader, name and directories
    that produced the template. *)
Record Origin : Type := mkOrigin {
  display_name : string;
  origin_loader : Loader;
  loadname : string;
  origin_dirs : Dirs
}.

(** [make_origin]: no origin for a falsy display name ([None] or the empty
    string). *)
Definition make_origin (display_name : option string) (loader : Loader)
    (name : string) (dirs : Dirs) : option Origin :=
  match display_name with
  | Some d => if String.eqb d "" then None else Some (mkOrigin d loader name dirs)
  | None => None
  end.

(** The value passed as [skip_template].  The module reads it only through
    [getattr(skip_template, 'loadname', None)] and
    [getattr(skip_template, 'loader', None)], so either attribute may be
    absent. *)
Record Marker : Type := mkMarker {
  marker_loadname : option string;
  marker_loader : option Loader
}.

Definition marker_of_origin (o : Origin) : Marker :=
  mkMarker (Some (loadname o)) (Some (origin_loader o)).

(** [getattr(skip_template, 'loadname', None)] *)
Definition getattr_loadname (skip_template : option Marker) : option string :=
  match skip_template with
  | Some m => marker_loadname m
  | None => None
  end.

(** [getattr(skip_template, 'loader', None)] *)
Definition getattr_loader (skip_template : option Marker) : option Loader :=
  match skip_template with
  | Some m => marker_loader m
  | None => None
  end.

(** [getattr(skip_template, 'loadname', None) == name], [name] a string. *)
Definition loadname_is (skip_template : option Marker) (name : string) : bool :=
  match getattr_loadname skip_template with
  | Some n => String.eqb n name
  | None => false
  end.

(** ** The skip filter *)

(** What iterating over the loaders gives: the loaders it yields, in
    order, and the exception the iteration ends with when it does not end by
    running out ([None]). *)
Record Generated : Type := mkGenerated {
  yields : list Loader;
  ends_with : option Exn
}.

(** Iterating over a tuple or a list. *)
Definition of_sequence (loaders : list Loader) : Generated :=
  mkGenerated loaders None.
#[warning="-uniform-inheritance"]
Coercion of_sequence : list >-> Generated.

(** What [loader.never_skip] raises on a loader without the attribute. *)
Definition AttributeError : Exn := OtherError "AttributeError".

(** The body of the [for] loop of [skip_loaders], with [has_been_skiped]
    threaded through.  [has_been_skiped or loader.never_skip] reads the
    attribute only while the flag is not set; on a loader without the
    attribute the read raises, which ends the generator.  The generator reads
    nothing but the chain and attributes of its loaders, so what it yields
    does not depend on when its consumer asks for the next element. *)
Fixpoint skip_loop (loader_to_skip : option Loader) (has_been_skiped : bool)
    (loaders : list Loader) : Generated :=
  match loaders with
  | [] => mkGenerated [] None
  | loader0 :: rest =>
      let loader := getattr___self__ loader0 in
      match (if has_been_skiped then Some true
             else never_skip (instance_of loader)) with
      | None => mkGenerated [] (Some AttributeError)
      | Some test =>
          let has_been_skiped' :=
            if py_eq_opt loader loader_to_skip then true else has_been_skiped in
          let later := skip_loop loader_to_skip has_been_skiped' rest in
          mkGenerated ((if test then [loader] else []) ++ yields later)
                      (ends_with later)
      end
  end.

Definition skip_loaders (loaders : list Loader) (skip_template : option Marker)
    : Generated :=
  let loader_to_skip := getattr_loader skip_template in
  let loader_to_skip :=
    match loader_to_skip with
    | Some l => Some (getattr___self__ l)
    | None => None
    end in
  skip_loop loader_to_skip false loaders.

(** ** The monad *)

(** A computation over a state [S] that returns an [A] or raises; either way
    it leaves a state. *)
Definition M (S A : Type) : Type := S -> Res A * S.

Definition ret {S A : Type} (a : A) : M S A := fun s => (Ret a, s).
Definition raise {S A : Type} (e : Exn) : M S A := fun s => (Raise e, s).
Definition bind {S A B : Type} (m : M S A) (k : A -> M S B) : M S B :=
  fun s =>
    match m s with
    | (Ret a, s') => k a s'
    | (Raise e, s') => (Raise e, s')
    end.

(** [try: body except TemplateDoesNotExist as e: handler(e.args[0])] *)
Definition try_except_TemplateDoesNotExist {S A : Type}
    (body : M S A) (handler : string -> M S A) : M S A :=
  fun s =>
    match body s with
    | (Raise (TemplateDoesNotExist args0), s') => handler args0 s'
    | r => r
    end.

Notation "x <- m ;; k" := (bind m (fun x => k))
  (at level 61, m at next level, right associativity).
Notation "' pat <- m ;; k" := (bind m (fun x => match x with pat => k end))
  (at level 61, pat pattern, m at next level, right associativity).

(** ** The types the module is generic in *)

Class Types : Type := {
  (** the state of everything outside this module that loaders, the
      importer, the compiler and the renderer read or change *)
  World : Type;
  (** a compiled template: what exposes [render] *)
  Template : Type;
  (** values of the [TEMPLATE_LOADERS] setting other than strings *)
  Arg : Type;
  (** a dictionary of template variables, and [{}] *)
  Dict : Type;
  empty_dict : Dict
}.

Section Data.
Context {T : Types}.

(** What a loader hands back as its first component: raw source, or an
    already compiled template (told apart by [hasattr(template, 'render')]). *)
Inductive Content : Type :=
| RawSource (source : string)
| Compiled (template : Template).

(** An entry of [settings.TEMPLATE_LOADERS], or an element of one. *)
Inductive SettingValue : Type :=
| SStr (s : string)
| SOther (a : Arg).

Inductive LoaderSpec : Type :=
| Bare (v : SettingValue)
| Seq (items : list SettingValue).

(** Code outside the module: it runs on the world. *)
Definition External (A : Type) : Type := M World A.

(** What [import_by_path] may find under a dotted path: a loader class
    (something with a [load_template_source] attribute, instantiated with the
    arguments of the spec) or an old style function loader. *)
Inductive Imported : Type :=
| LoaderClass (construct : list SettingValue -> External LoaderObject)
| LoaderFunction (func : LoaderObject).

(** Modelled from the spec: the rendering context ([django.template.Context],
    declared outside this file) is a stack of dictionaries, top first;
    [Context(d)] is the fresh stack holding [d] alone, [push] puts a
    dictionary on top, and the scope that [push] opens takes the top off
    again when it is left, on a return as on an exception. *)
Definition Context : Type := list Dict.
Definition Context_init (d : Dict) : Context := [d].
Definition push (d : Dict) (c : Context) : Context := d :: c.
Definition scope_exit (c : Context) : Context := tl c.

(** What the module asked of its collaborators, in order; kept to state
    which of them were reached. *)
Inductive Event : Type :=
| Imported_path (path : string)
| Warned (path : string)
| Invoked (loader : Loader) (name : string)
| Compiling (name : option string)
| Rendering (t : Template).

(** The process state: the module global [template_source_loaders]
    ([None] until computed), the setting, the world and the event log. *)
Record State : Type := mkState {
  template_source_loaders : option (list Loader);
  TEMPLATE_LOADERS : list LoaderSpec;
  world : World;
  events : list Event
}.

Definition set_template_source_loaders (v : option (list Loader)) (s : State) : State :=
  mkState v (TEMPLATE_LOADERS s) (world s) (events s).
Definition set_world (w : World) (s : State) : State :=
  mkState (template_source_loaders s) (TEMPLATE_LOADERS s) w (events s).
Definition log (e : Event) (s : State) : State :=
  mkState (template_source_loaders s) (TEMPLATE_LOADERS s) (world s) (events s ++ [e]).

(** Running outside code from the module: only the world moves. *)
Definition lift {A : Type} (f : External A) : M State A :=
  fun s => let (r, w) := f (world s) in (r, set_world w s).

Definition tell (e : Event) : M State unit := fun s => (Ret tt, log e s).

(** A call to a collaborator, logged before it runs. *)
Definition external {A : Type} (e : Event) (f : External A) : M State A :=
  _ <- tell e ;; lift f.

End Data.

(** ** The collaborators *)

Class Collaborators {T : Types} : Type := {
  (** [import_by_path(path)] *)
  import_by_path : string -> External Imported;
  (** [loader(name, dirs, skip_template)]: calling a chain element *)
  invoke : Loader -> string -> Dirs -> option Marker -> External (Content * option string);
  (** [self.load_template_source(template_name, template_dirs)], as the
      subclass of [self] provides it *)
  load_template_source : LoaderObject -> string -> Dirs -> External (string * option string);
  (** [Template(source, origin, name)]: the compiler *)
  Template_init : string -> option Origin -> option string -> External Template;
  (** [t.render(context)]: the renderer; it is handed the context object and
      may change it, so the context it leaves is part of its result *)
  render : Template -> Context -> World -> Res string * Context * World
}.

(** ** The module *)

Section Module_loader.
Context {T : Types} {C : Collaborators}.

(** *** Loader registry *)

(** The text of the two [ImproperlyConfigured] errors. *)
Definition dquote : string := String (Ascii.ascii_of_nat 34) EmptyString.
Definition msg_function_args (loader : string) : string :=
  "Error importing template source loader " ++ loader ++
  " - can't pass arguments to function-based loader.".
Definition msg_no_callable : string :=
  "Loader does not define a " ++ dquote ++ "load_template" ++ dquote ++
  " callable template source loader".

Definition find_template_loader (loader : LoaderSpec) : M State (option Loader) :=
  '(loader, args) <-
     match loader with
     | Seq [] => raise (OtherError "IndexError")
     | Seq (l0 :: rest) => ret (l0, rest)
     | Bare v => ret (v, [])
     end ;;
  match loader with
  | SStr path =>
      TemplateLoader <- external (Imported_path path) (import_by_path path) ;;
      func <-
        match TemplateLoader with
        | LoaderClass construct => lift (construct args)
        | LoaderFunction f =>
            match args with
            | _ :: _ => raise (ImproperlyConfigured (msg_function_args path))
            | [] => ret f
            end
        end ;;
      if negb (is_usable func)
      then _ <- tell (Warned path) ;; ret None
      else ret (Some (Obj func))
  | SOther _ => raise (ImproperlyConfigured msg_no_callable)
  end.

(** The [for loader_name in settings.TEMPLATE_LOADERS] loop, [loaders] being
    the list built so far. *)
Fixpoint resolve_specs (names : list LoaderSpec) (loaders : list Loader)
    : M State (list Loader) :=
  match names with
  | [] => ret loaders
  | loader_name :: rest =>
      loader <- find_template_loader loader_name ;;
      match loader with
      | Some l => resolve_specs rest (loaders ++ [l])
      | None => resolve_specs rest loaders
      end
  end.

Definition get_template_source_loaders : M State (list Loader) :=
  fun s =>
    match template_source_loaders s with
    | None =>
        (loaders <- resolve_specs (TEMPLATE_LOADERS s) [] ;;
         fun s' => (Ret loaders, set_template_source_loaders (Some loaders) s')) s
    | Some loaders => (Ret loaders, s)
    end.

(** *** Class based loaders *)

(** [get_template_from_string] *)
Definition get_template_from_string (source : string) (origin : option Origin)
    (name : option string) : External Template :=
  Template_init source origin name.

(** [BaseLoader.load_template]; loader code, so it runs on the world. *)
Definition load_template (self : LoaderObject) (template_name : string)
    (template_dirs : Dirs) (skip_template : option Marker)
    : External (Content * option string) :=
  '(source, display_name) <- load_template_source self template_name template_dirs ;;
  let origin :=
    make_origin display_name (Method self "load_template_source")
                template_name template_dirs in
  try_except_TemplateDoesNotExist
    (template <- get_template_from_string source origin (Some template_name) ;;
     ret (Compiled template, None))
    (fun _ => ret (RawSource source, display_name)).

(** [BaseLoader.__call__] *)
Definition BaseLoader_call (self : LoaderObject) (template_name : string)
    (template_dirs : Dirs) (skip_template : option Marker)
    : External (Content * option string) :=
  load_template self template_name template_dirs skip_template.

(** *** Resolver *)

(** [get_template_source_loaders() if loaders is None else loaders] *)
Definition loaders_or_default (loaders : option (list Loader)) : M State (list Loader) :=
  match loaders with
  | None => get_template_source_loaders
  | Some ls => ret ls
  end.

(** What [find_template] iterates over: the generator of [skip_loaders]
    when the marker names the template looked up, the chain otherwise. *)
Definition loaders_to_try (name : string) (skip_template : option Marker)
    (loaders : list Loader) : Generated :=
  if loadname_is skip_template name
  then skip_loaders loaders skip_template
  else of_sequence loaders.

(** The loaders the loop of [find_template] is handed, in order. *)
Definition skip_if_same_name (name : string) (skip_template : option Marker)
    (loaders : list Loader) : list Loader :=
  yields (loaders_to_try name skip_template loaders).

(** The [for loader in loaders] loop of [find_template], over the loaders
    the iteration yields; when they are used up, the exception the iteration
    ended with leaves the [for] statement, and without one the loop is
    over. *)
Fixpoint for_each_loader (name : string) (dirs : Dirs)
    (skip_template : option Marker) (ended : option Exn)
    (loaders : list Loader) : M State (Content * option Origin) :=
  match loaders with
  | [] =>
      match ended with
      | Some e => raise e
      | None => raise (TemplateDoesNotExist name)
      end
  | loader :: rest =>
      try_except_TemplateDoesNotExist
        ('(source, display_name) <-
           external (Invoked loader name) (invoke loader name dirs skip_template) ;;
         ret (source, make_origin display_name loader name dirs))
        (fun _ => for_each_loader name dirs skip_template ended rest)
  end.

Definition try_loaders (name : string) (dirs : Dirs) (skip_template : option Marker)
    (loaders : Generated) : M State (Content * option Origin) :=
  for_each_loader name dirs skip_template (ends_with loaders) (yields loaders).

Definition find_template (name : string) (dirs : Dirs)
    (skip_template : option Marker) (loaders : option (list Loader))
    : M State (Content * option Origin) :=
  loaders <- loaders_or_default loaders ;;
  let loaders := loaders_to_try name skip_template loaders in
  try_loaders name dirs skip_template loaders.

(** *** Facade *)

Definition get_template (template_name : string) (dirs : Dirs)
    (skip_template : option Marker) : M State Template :=
  '(template, origin) <- find_template template_name dirs skip_template None ;;
  match template with
  | Compiled t => ret t
  | RawSource source =>
      external (Compiling (Some template_name))
               (get_template_from_string source origin (Some template_name))
  end.

(** [e.args[0] not in not_found] *)
Definition not_in (x : string) (l : list string) : bool :=
  negb (existsb (String.eqb x) l).

(** The [for template_name in template_name_list] loop of [select_template]. *)
Fixpoint select_loop (dirs : Dirs) (skip_template : option Marker)
    (template_name_list : list string) (not_found : list string) : M State Template :=
  match template_name_list with
  | [] => raise (TemplateDoesNotExist (String.concat ", " not_found))
  | template_name :: rest =>
      try_except_TemplateDoesNotExist
        (get_template template_name dirs skip_template)
        (fun args0 =>
           select_loop dirs skip_template rest
             (if not_in args0 not_found then not_found ++ [args0] else not_found))
  end.

Definition select_template (template_name_list : list string) (dirs : Dirs)
    (skip_template : option Marker) : M State Template :=
  match template_name_list with
  | [] => raise (TemplateDoesNotExist "No template names provided")
  | _ :: _ => select_loop dirs skip_template template_name_list []
  end.

(** The first argument of [render_to_string]: one name, or a list or tuple
    of names. *)
Inductive TemplateName : Type :=
| Single (name : string)
| Several (names : list string).

(** [select_template(template_name, dirs)] for a list or tuple,
    [get_template(template_name, dirs)] otherwise. *)
Definition load_named (template_name : TemplateName) (dirs : Dirs) : M State Template :=
  match template_name with
  | Several names => select_template names dirs None
  | Single name => get_template name dirs None
  end.

(** [render_to_string].  The context object the caller passed is returned in
    the state the call leaves it in ([None] when none was passed). *)
Definition render_to_string (template_name : TemplateName)
    (dictionary : option Dict) (context_instance : option Context) (dirs : Dirs)
    : State -> Res string * option Context * State :=
  fun s =>
    let dictionary := match dictionary with Some d => d | None => empty_dict end in
    match load_named template_name dirs s with
    | (Raise e, s1) => (Raise e, context_instance, s1)
    | (Ret t, s1) =>
        let s2 := log (Rendering t) s1 in
        match context_instance with
        | None =>
            let '(r, _, w) := render t (Context_init dictionary) (world s2) in
            (r, None, set_world w s2)
        | Some c =>
            let '(r, c', w) := render t (push dictionary c) (world s2) in
            (r, Some (scope_exit c'), set_world w s2)
        end
    end.

End Module_loader.

(** ** Vocabulary of the properties *)

(** The loader is flagged never-skip. *)
Definition flagged_never_skip (l : Loader) : bool :=
  match never_skip (instance_of l) with
  | Some true => true
  | _ => false
  end.



(** Two loader references stand for the same instance. *)
Definition same_instance (a b : Loader) : bool :=
  Nat.eqb (oid (instance_of a)) (oid (instance_of b)).

(** [l] is the loader that produced the marker. *)
Definition produced_marker (skip_template : option Marker) (l : Loader) : bool :=
  match getattr_loader skip_template with
  | Some t => same_instance l t
  | None => false
  end.

(** Position of the first element of the chain that satisfies [p]. *)
Fixpoint first_occurrence (p : Loader -> bool) (chain : list Loader) : option nat :=
  match chain with
  | [] => None
  | l :: rest =>
      if p l then Some 0 else option_map S (first_occurrence p rest)
  end.

(** The elements of the chain kept by a test on position and element, in
    their order; the head of the chain has position [i]. *)
Fixpoint select_positions (keep : nat -> Loader -> bool) (i : nat)
    (chain : list Loader) : list Loader :=
  match chain with
  | [] => []
  | l :: rest =>
      (if keep i l then [l] else []) ++ select_positions keep (S i) rest
  end.

(** Position [i] lies strictly after the first occurrence of the marker's
    loader. *)
Definition after_skip_point (skip_template : option Marker) (chain : list Loader)
    (i : nat) : bool :=
  match first_occurrence (produced_marker skip_template) chain with
  | Some k => Nat.ltb k i
  | None => false
  end.

(** The skip filter as the specification words it: the loaders flagged
    never-skip or placed strictly after the first occurrence of the marker's
    loader, each at its position. *)
Definition skip_spec (chain : list Loader) (skip_template : option Marker)
    : list Loader :=
  select_positions
    (fun i l => flagged_never_skip l || after_skip_point skip_template chain i)
    0 chain.

Definition is_object (l : Loader) : bool :=
  match l with Obj _ => true | Method _ _ => false end.

(** The failure messages of the specification's selector: exact duplicates
    dropped, first-seen order kept.  [seen] holds what came earlier. *)
Fixpoint first_seen (seen : list string) (msgs : list string) : list string :=
  match msgs with
  | [] => []
  | m :: rest =>
      if existsb (String.eqb m) seen
      then first_seen seen rest
      else m :: first_seen (m :: seen) rest
  end.

Section Runs.
Context {T : Types} {C : Collaborators}.

(** Every loader of [loaders], called in turn from [s] as [find_template]
    calls them, raises [TemplateDoesNotExist]; the state they leave. *)
Fixpoint all_raise_not_found (name : string) (dirs : Dirs)
    (skip_template : option Marker) (loaders : list Loader) (s : State)
    : option State :=
  match loaders with
  | [] => Some s
  | l :: rest =>
      match external (Invoked l name) (invoke l name dirs skip_template) s with
      | (Raise (TemplateDoesNotExist _), s') =>
          all_raise_not_found name dirs skip_template rest s'
      | _ => None
      end
  end.

(** Every candidate of [names], tried in turn from [s] through
    [get_template], fails with [TemplateDoesNotExist]; their messages and the
    state they leave. *)
Fixpoint all_candidates_fail (dirs : Dirs) (skip_template : option Marker)
    (names : list string) (s : State) : option (list string * State) :=
  match names with
  | [] => Some ([], s)
  | n :: rest =>
      match get_template n dirs skip_template s with
      | (Raise (TemplateDoesNotExist msg), s') =>
          match all_candidates_fail dirs skip_template rest s' with
          | Some (msgs, s'') => Some (msg :: msgs, s'')
          | None => None
          end
      | _ => None
      end
  end.

(** A computation of the module leaves a stored chain where it is. *)
Definition keeps_stored_chain {A : Type} (m : M State A) : Prop :=
  forall s chain,
    template_source_loaders s = Some chain ->
    template_source_loaders (snd (m s)) = Some chain.

(** The renderer keeps the stack discipline on a context [c]: whatever it is
    asked to render on top of [c], it leaves [c] under one frame. *)
Definition renderer_balanced_on (c : Context) : Prop :=
  forall t d w, exists r top w', render t (push d c) w = (r, push top c, w').

End Runs.

(** ** A concrete installation *)

Module Demo.

#[global] Instance types : Types := {|
  World := nat;
  Template := string;
  Arg := nat;
  Dict := list (string * string);
  empty_dict := []
|}.

Definition fs : LoaderObject := mkLoaderObject 1 true (Some false) (Some false) None.
Definition app : LoaderObject := mkLoaderObject 2 true (Some false) (Some false) None.
Definition db : LoaderObject := mkLoaderObject 3 true (Some false) (Some false) None.
Definition cached : LoaderObject := mkLoaderObject 4 true (Some false) (Some true) None.
Definition base : LoaderObject := mkLoaderObject 5 true (Some false) (Some false) None.
Definition eggs : LoaderObject := mkLoaderObject 6 false (Some false) (Some false) None.
(** configured as [fs], but another instance *)
Definition fs_twin : LoaderObject := mkLoaderObject 7 true (Some false) (Some false) None.

Definition extends_missing : string := "{% extends 'missing.html' %}".

(** The world counts the calls made to the collaborators. *)
Definition demo_load_template_source (self : LoaderObject) (name : string)
    (dirs : Dirs) : External (string * option string) :=
  fun w => (Ret (extends_missing, Some ("/base/" ++ name)%string), S w).

Definition demo_Template_init (source : string) (origin : option Origin)
    (name : option string) : External Template :=
  fun w =>
    if String.eqb source extends_missing
    then (Raise (TemplateDoesNotExist "missing.html"), S w)
    else (Ret ("compiled " ++ source)%string, S w).

Definition demo_import_by_path (path : string) : External Imported :=
  fun w =>
    if String.eqb path "loaders.filesystem.Loader"
    then (Ret (LoaderClass (fun _ w' => (Ret fs, S w'))), S w)
    else if String.eqb path "loaders.eggs.Loader"
    then (Ret (LoaderClass (fun _ w' => (Ret eggs, S w'))), S w)
    else if String.eqb path "legacy.load_template_source"
    then (Ret (LoaderFunction app), S w)
    else (Raise (ImproperlyConfigured path), S w).

Definition demo_render (t : Template) (c : Context) (w : World)
    : Res string * Context * World :=
  match c with
  | d :: rest =>
      if String.eqb t "cached boom.html"
      then (Raise (OtherError "ValueError"), (("forloop", "0") :: d) :: rest, S w)
      else (Ret ("rendered " ++ t)%string, (("forloop", "0") :: d) :: rest, S w)
  | [] => (Raise (OtherError "ContextPopException"), [], S w)
  end.

(** The loaders that do not go through [BaseLoader.__call__]. *)
#[global] Instance plain : Collaborators := {|
  import_by_path := demo_import_by_path;
  invoke := fun l name _ _ w =>
    match oid (instance_of l) with
    | 2 => (Ret (RawSource ("<p>" ++ name ++ "</p>")%string, Some ("/app/" ++ name)%string), S w)
    | 3 => (Raise (OtherError "IOError"), S w)
    | 4 => (Ret (Compiled ("cached " ++ name)%string, None), S w)
    | _ => (Raise (TemplateDoesNotExist ("fs:" ++ name)%string), S w)
    end;
  load_template_source := demo_load_template_source;
  Template_init := demo_Template_init;
  render := demo_render
|}.

(** As [plain], with [base] a class based loader called through
    [BaseLoader.__call__]. *)
Definition with_base : Collaborators := {|
  import_by_path := demo_import_by_path;
  invoke := fun l name dirs skip_template =>
    match oid (instance_of l) with
    | 5 => BaseLoader_call (C := plain) (instance_of l) name dirs skip_template
    | _ => invoke (Collaborators := plain) l name dirs skip_template
    end;
  load_template_source := demo_load_template_source;
  Template_init := demo_Template_init;
  render := demo_render
|}.

Definition settings : list LoaderSpec :=
  [ Bare (SStr "loaders.filesystem.Loader");
    Seq [SStr "loaders.eggs.Loader"; SOther 3];
    Bare (SStr "legacy.load_template_source") ].

Definition fresh : State := mkState None settings 0 [].

(** A process whose chain was computed already. *)
Definition warm (chain : list Loader) : State := mkState (Some chain) settings 0 [].

(** [fresh] after the chain was resolved from [settings]. *)
Definition resolved : State :=
  mkState (Some [Obj fs; Obj app]) settings 5
    [ Imported_path "loaders.filesystem.Loader";
      Imported_path "loaders.eggs.Loader";
      Warned "loaders.eggs.Loader";
      Imported_path "legacy.load_template_source" ].

Definition outer : Context := [[("user", "ann")]].

(** A loader flagged never-skip that finds no template. *)
Definition alias : LoaderObject := mkLoaderObject 13 true (Some false) (Some true) None.

(** A function used as a loader: it has [is_usable] and nothing of
    [BaseLoader]. *)
Definition legacy : LoaderObject := mkLoaderObject 10 true None None None.


End Demo.

(** ** The rest of the base class, and more vocabulary *)

Section Base_class.
Context {T : Types}.

(** The text of the [NotImplementedError] of [BaseLoader]. *)
Definition msg_not_implemented : string :=
  "subclasses of BaseLoader must provide a load_template_source() method".

(** [BaseLoader.load_template_source]: what a subclass that does not
    provide the method inherits. *)
Definition BaseLoader_load_template_source (self : LoaderObject)
    (template_name : string) (template_dirs : Dirs)
    : External (string * option string) :=
  raise (NotImplementedError msg_not_implemented).

(** A computation of the module that does not write
    [template_source_loaders]. *)
Definition registry_untouched {A : Type} (m : M State A) : Prop :=
  forall s, template_source_loaders (snd (m s)) = template_source_loaders s.

(** A loader that may stand in the active chain: a usable loader object. *)
Definition usable_object (l : Loader) : bool :=
  is_object l && is_usable (instance_of l).


End Base_class.

(** A second installation: [bare] is a class based loader whose class does
    not provide [load_template_source]. *)
Module Demo_abstract.

Definition bare : LoaderObject := mkLoaderObject 8 true (Some false) (Some false) None.

Definition sources : Collaborators := {|
  import_by_path := Demo.demo_import_by_path;
  invoke := invoke (Collaborators := Demo.plain);
  load_template_source := fun self name dirs =>
    if Nat.eqb (oid self) 8
    then BaseLoader_load_template_source self name dirs
    else Demo.demo_load_template_source self name dirs;
  Template_init := Demo.demo_Template_init;
  render := Demo.demo_render
|}.

Definition installation : Collaborators := {|
  import_by_path := Demo.demo_import_by_path;
  invoke := fun l name dirs skip_template =>
    match oid (instance_of l) with
    | 8 => BaseLoader_call (C := sources) (instance_of l) name dirs skip_template
    | _ => invoke (Collaborators := Demo.plain) l name dirs skip_template
    end;
  load_template_source := load_template_source (Collaborators := sources);
  Template_init := Demo.demo_Template_init;
  render := Demo.demo_render
|}.

End Demo_abstract.

(** A third installation: [pages] is a class based loader with sources
    that compile, but for one the compiler rejects. *)
Module Demo_pages.

Definition pages : LoaderObject := mkLoaderObject 9 true (Some false) (Some false) None.

Definition sources : Collaborators := {|
  import_by_path := Demo.demo_import_by_path;
  invoke := invoke (Collaborators := Demo.plain);
  load_template_source := fun self name dirs w =>
    (Ret (("<h1>" ++ name ++ "</h1>")%string, Some ("/pages/" ++ name)%string), S w);
  Template_init := fun source origin name w =>
    if String.eqb source "<h1>broken.html</h1>"
    then (Raise (OtherError "TemplateSyntaxError"), S w)
    else Demo.demo_Template_init source origin name w;
  render := Demo.demo_render
|}.

Definition installation : Collaborators := {|
  import_by_path := Demo.demo_import_by_path;
  invoke := fun l name dirs skip_template =>
    match oid (instance_of l) with
    | 9 => BaseLoader_call (C := sources) (instance_of l) name dirs skip_template
    | _ => invoke (Collaborators := Demo.plain) l name dirs skip_template
    end;
  load_template_source := load_template_source (Collaborators := sources);
  Template_init := Template_init (Collaborators := sources);
  render := Demo.demo_render
|}.

(** A setting whose second entry is not a string. *)
Definition broken_settings : State :=
  mkState None [Bare (SStr "loaders.filesystem.Loader"); Bare (SOther 1)] 0 [].

(** What the constructor of the loader class under "loaders.db.Loader"
    does: it refuses its arguments. *)
Definition refusing_constructor (args : list SettingValue) : External LoaderObject :=
  fun w => (Raise (OtherError "TypeError"), S w).

(** As [Demo.plain], with that class to import. *)
Definition strict : Collaborators := {|
  import_by_path := fun path w =>
    if String.eqb path "loaders.db.Loader"
    then (Ret (LoaderClass refusing_constructor), S w)
    else Demo.demo_import_by_path path w;
  invoke := invoke (Collaborators := Demo.plain);
  load_template_source := Demo.demo_load_template_source;
  Template_init := Demo.demo_Template_init;
  render := Demo.demo_render
|}.

End Demo_pages.

(** A fourth installation: the setting names a loader class and a function
    loader, the function being [Demo.legacy]. *)
Module Demo_legacy.

Definition installation : Collaborators := {|
  import_by_path := fun path w =>
    if String.eqb path "legacy.load_template_source"
    then (Ret (LoaderFunction Demo.legacy), S w)
    else Demo.demo_import_by_path path w;
  invoke := invoke (Collaborators := Demo.plain);
  load_template_source := Demo.demo_load_template_source;
  Template_init := Demo.demo_Template_init;
  render := Demo.demo_render
|}.

Definition settings : list LoaderSpec :=
  [ Bare (SStr "loaders.filesystem.Loader");
    Bare (SStr "legacy.load_template_source") ].

Definition fresh : State := mkState None settings 0 [].

(** [fresh] after the chain was resolved. *)
Definition resolved : State :=
  mkState (Some [Obj Demo.fs; Obj Demo.legacy]) settings 3
    [ Imported_path "loaders.filesystem.Loader";
      Imported_path "legacy.load_template_source" ].

(** The marker of a template that the function loader produced. *)
Definition marker : Marker := mkMarker (Some "a.html") (Some (Obj Demo.legacy)).

End Demo_legacy.

(** * Properties *)

(** ** The skip filter *)

Lemma never_skip_unwrapped (l : Loader) :
  never_skip (instance_of (getattr___self__ l)) = never_skip (instance_of l).
Proof. destruct l; reflexivity. Qed.

Lemma flagged_unwrapped (l : Loader) :
  flagged_never_skip (getattr___self__ l) = flagged_never_skip l.
Proof. destruct l; reflexivity. Qed.




Lemma skip_loaders_unfold (chain : list Loader) (skip_template : option Marker) :
  skip_loaders chain skip_template
  = skip_loop (option_map getattr___self__ (getattr_loader skip_template)) false chain.
Proof. unfold skip_loaders. destruct (getattr_loader skip_template); reflexivity. Qed.






(** One turn of the loop, before the skip point, on a loader without the
    attribute: the generator raises and yields no more. *)
Lemma skip_loop_raises (t : option Loader) (l : Loader) (rest : list Loader) :
  never_skip (instance_of l) = None ->
  skip_loop t false (l :: rest) = mkGenerated [] (Some AttributeError).
Proof. intros H. simpl. rewrite never_skip_unwrapped, H. reflexivity. Qed.






(** C2, on the code: on the chain (function loader, class loader, class
    loader) with the marker of the first class loader, the specification
    has the filter yield the last loader; [skip_loaders] reads
    [never_skip] on the function loader, which does not have it, and ends
    with [AttributeError] before it yields anything. *)
Lemma skip_loaders_raises_on_function_loader :
  skip_loaders [Obj Demo.legacy; Obj Demo.fs; Obj Demo.db]
    (Some (mkMarker (Some "a.html") (Some (Obj Demo.fs))))
  = mkGenerated [] (Some AttributeError)
  /\ skip_spec [Obj Demo.legacy; Obj Demo.fs; Obj Demo.db]
       (Some (mkMarker (Some "a.html") (Some (Obj Demo.fs))))
     = [Obj Demo.db].
Proof. split; reflexivity. Qed.




(** The generator ends by running out, or with the [AttributeError] of
    [loader.never_skip]. *)
Lemma skip_loop_ends (t : option Loader) (chain : list Loader) :
  forall flag e,
    ends_with (skip_loop t flag chain) = Some e -> e = AttributeError.
Proof.
  induction chain as [|l rest IH]; intros flag e; simpl; [discriminate|].
  destruct (if flag then Some true
            else never_skip (instance_of (getattr___self__ l))) as [test|].
  - simpl. apply IH.
  - simpl. intros H. injection H as <-. reflexivity.
Qed.

Lemma loaders_to_try_ends (name : string) (skip_template : option Marker)
    (chain : list Loader) (e : Exn) :
  ends_with (loaders_to_try name skip_template chain) = Some e ->
  is_TemplateDoesNotExist e = false.
Proof.
  unfold loaders_to_try. destruct (loadname_is skip_template name); [|discriminate].
  rewrite skip_loaders_unfold. intros H. apply skip_loop_ends in H. subst e.
  reflexivity.
Qed.



(** ** Runs of the module *)

Section Facts.
Context {T : Types} {C : Collaborators}.

Lemma external_run {A : Type} (e : Event) (f : External A) (s : State) :
  external e f s
  = (fst (f (world s)), set_world (snd (f (world s))) (log e s)).
Proof.
  unfold external, bind, tell, lift. simpl. destruct (f (world s)); reflexivity.
Qed.

Lemma all_raise_not_found_cons (name : string) (dirs : Dirs)
    (skip_template : option Marker) (l : Loader) (rest : list Loader)
    (s s1 : State) :
  all_raise_not_found name dirs skip_template (l :: rest) s = Some s1 ->
  exists msg w,
    invoke l name dirs skip_template (world s) = (Raise (TemplateDoesNotExist msg), w)
    /\ all_raise_not_found name dirs skip_template rest
         (set_world w (log (Invoked l name) s)) = Some s1.
Proof.
  simpl. rewrite external_run.
  destruct (invoke l name dirs skip_template (world s)) as [r w] eqn:E. simpl.
  destruct r as [a|e]; [discriminate|].
  destruct e; try discriminate.
  intros H. exists args0, w. split; [reflexivity|exact H].
Qed.

(** A loader that raises [TemplateDoesNotExist] is passed over. *)
Lemma try_loaders_not_found (name : string) (dirs : Dirs)
    (skip_template : option Marker) (ended : option Exn) (l : Loader)
    (rest : list Loader) (s : State) (msg : string) (w : World) :
  invoke l name dirs skip_template (world s) = (Raise (TemplateDoesNotExist msg), w) ->
  for_each_loader name dirs skip_template ended (l :: rest) s
  = for_each_loader name dirs skip_template ended rest
      (set_world w (log (Invoked l name) s)).
Proof.
  intros H. simpl. unfold try_except_TemplateDoesNotExist, bind at 1.
  rewrite external_run, H. reflexivity.
Qed.

(** A loader that returns ends the loop. *)
Lemma try_loaders_found (name : string) (dirs : Dirs)
    (skip_template : option Marker) (ended : option Exn) (l : Loader)
    (rest : list Loader) (s : State) (content : Content) (dn : option string)
    (w : World) :
  invoke l name dirs skip_template (world s) = (Ret (content, dn), w) ->
  for_each_loader name dirs skip_template ended (l :: rest) s
  = (Ret (content, make_origin dn l name dirs),
     set_world w (log (Invoked l name) s)).
Proof.
  intros H. simpl. unfold try_except_TemplateDoesNotExist, bind at 1.
  rewrite external_run, H. reflexivity.
Qed.

(** A loader that raises anything else ends the loop with that exception. *)
Lemma try_loaders_raised (name : string) (dirs : Dirs)
    (skip_template : option Marker) (ended : option Exn) (l : Loader)
    (rest : list Loader) (s : State) (e : Exn) (w : World) :
  invoke l name dirs skip_template (world s) = (Raise e, w) ->
  is_TemplateDoesNotExist e = false ->
  for_each_loader name dirs skip_template ended (l :: rest) s
  = (Raise e, set_world w (log (Invoked l name) s)).
Proof.
  intros H He. simpl. unfold try_except_TemplateDoesNotExist, bind at 1.
  rewrite external_run, H. simpl. destruct e; try reflexivity. discriminate.
Qed.

(** The loop passes a prefix of loaders that all raise
    [TemplateDoesNotExist], calling each of them once. *)
Lemma try_loaders_prefix (name : string) (dirs : Dirs)
    (skip_template : option Marker) (ended : option Exn) (pre rest : list Loader) :
  forall s s1,
    all_raise_not_found name dirs skip_template pre s = Some s1 ->
    for_each_loader name dirs skip_template ended (pre ++ rest) s
    = for_each_loader name dirs skip_template ended rest s1
    /\ events s1 = events s ++ map (fun x => Invoked x name) pre
    /\ template_source_loaders s1 = template_source_loaders s.
Proof.
  induction pre as [|l pre IH]; intros s s1 H.
  - simpl in H. injection H as <-. rewrite app_nil_r. auto.
  - apply all_raise_not_found_cons in H as (msg & w & Hl & Hrest).
    destruct (IH _ _ Hrest) as (Hrun & Hev & Hcache).
    rewrite <- app_comm_cons, (try_loaders_not_found _ _ _ _ _ _ _ _ _ Hl).
    split; [exact Hrun|split].
    + rewrite Hev. simpl. rewrite <- app_assoc. reflexivity.
    + rewrite Hcache. reflexivity.
Qed.

Lemma find_template_unfold (name : string) (dirs : Dirs)
    (skip_template : option Marker) (loaders : option (list Loader))
    (chain : list Loader) (s s0 : State) :
  loaders_or_default loaders s = (Ret chain, s0) ->
  find_template name dirs skip_template loaders s
  = for_each_loader name dirs skip_template
      (ends_with (loaders_to_try name skip_template chain))
      (skip_if_same_name name skip_template chain) s0.
Proof. intros H. unfold find_template, bind. rewrite H. reflexivity. Qed.

(** C1: [find_template] returns what the first loader of the chain it
    walks, in chain order, that does not raise [TemplateDoesNotExist]
    returned, with the origin made for that loader; the loaders called are
    those before it and itself, none of those after it. *)
Theorem find_template_first_success :
  forall (name : string) (dirs : Dirs) (skip_template : option Marker)
         (loaders : option (list Loader)) (chain pre post : list Loader)
         (l : Loader) (content : Content) (dn : option string)
         (s s0 s1 : State) (w2 : World),
    loaders_or_default loaders s = (Ret chain, s0) ->
    skip_if_same_name name skip_template chain = pre ++ l :: post ->
    all_raise_not_found name dirs skip_template pre s0 = Some s1 ->
    invoke l name dirs skip_template (world s1) = (Ret (content, dn), w2) ->
    find_template name dirs skip_template loaders s
    = (Ret (content, make_origin dn l name dirs),
       set_world w2 (log (Invoked l name) s1))
    /\ events (set_world w2 (log (Invoked l name) s1))
       = events s0 ++ map (fun x => Invoked x name) (pre ++ [l]).
Proof.
  intros name dirs skip_template loaders chain pre post l content dn s s0 s1 w2
         Hchain Hsplit Hpre Hl.
  destruct (try_loaders_prefix name dirs skip_template
              (ends_with (loaders_to_try name skip_template chain))
              pre (l :: post) _ _ Hpre) as (Hrun & Hev & _).
  rewrite (find_template_unfold _ _ _ _ _ _ _ Hchain), Hsplit, Hrun.
  rewrite (try_loaders_found _ _ _ _ _ _ _ _ _ _ Hl).
  split; [reflexivity|].
  simpl. rewrite Hev, map_app, app_assoc. reflexivity.
Qed.

(** C3, on the code: with the chain the registry resolves from a setting
    that names a loader class and a function loader, and the marker of a
    template of the function loader, the filtered chain of the
    specification is empty, so every loader in it raises
    [TemplateDoesNotExist] and the lookup should end with
    [TemplateDoesNotExist] for the name; [find_template] ends with the
    [AttributeError] of [loader.never_skip] instead, no loader having been
    called. *)
Lemma find_template_raises_attribute_error :
  find_template (C := Demo_legacy.installation) "a.html" None
    (Some Demo_legacy.marker) None Demo_legacy.fresh
  = (Raise AttributeError, Demo_legacy.resolved)
  /\ skip_spec [Obj Demo.fs; Obj Demo.legacy] (Some Demo_legacy.marker) = []
  /\ all_raise_not_found (C := Demo_legacy.installation) "a.html" None
       (Some Demo_legacy.marker)
       (skip_spec [Obj Demo.fs; Obj Demo.legacy] (Some Demo_legacy.marker))
       Demo_legacy.resolved
     = Some Demo_legacy.resolved.
Proof. repeat split. Qed.

(** X17: when the iteration over the loaders ends without an exception
    and every loader it yields raises [TemplateDoesNotExist],
    [find_template] raises [TemplateDoesNotExist] with the name it was asked
    for, whatever the loaders put in theirs; when the iteration ends with an
    exception after loaders that all raised [TemplateDoesNotExist], that
    exception leaves [find_template]; an exception of a loader of another
    kind than [TemplateDoesNotExist] leaves [find_template] as it is, and no
    later loader is called. *)
Theorem find_template_not_found_or_propagates :
  forall (name : string) (dirs : Dirs) (skip_template : option Marker)
         (loaders : option (list Loader)) (chain : list Loader) (s s0 : State),
    loaders_or_default loaders s = (Ret chain, s0) ->
    (forall s1,
        ends_with (loaders_to_try name skip_template chain) = None ->
        all_raise_not_found name dirs skip_template
          (skip_if_same_name name skip_template chain) s0 = Some s1 ->
        find_template name dirs skip_template loaders s
        = (Raise (TemplateDoesNotExist name), s1))
    /\ (forall e s1,
        ends_with (loaders_to_try name skip_template chain) = Some e ->
        all_raise_not_found name dirs skip_template
          (skip_if_same_name name skip_template chain) s0 = Some s1 ->
        find_template name dirs skip_template loaders s = (Raise e, s1))
    /\ (forall pre l post e s1 w2,
        skip_if_same_name name skip_template chain = pre ++ l :: post ->
        all_raise_not_found name dirs skip_template pre s0 = Some s1 ->
        invoke l name dirs skip_template (world s1) = (Raise e, w2) ->
        is_TemplateDoesNotExist e = false ->
        find_template name dirs skip_template loaders s
        = (Raise e, set_world w2 (log (Invoked l name) s1))
        /\ events (set_world w2 (log (Invoked l name) s1))
           = events s0 ++ map (fun x => Invoked x name) (pre ++ [l])).
Proof.
  intros name dirs skip_template loaders chain s s0 Hchain.
  rewrite (find_template_unfold _ _ _ _ _ _ _ Hchain). split; [|split].
  - intros s1 Hend Hall.
    destruct (try_loaders_prefix name dirs skip_template
                (ends_with (loaders_to_try name skip_template chain))
                _ [] _ _ Hall) as (Hrun & _).
    rewrite app_nil_r in Hrun. rewrite Hrun. simpl. rewrite Hend. reflexivity.
  - intros e s1 Hend Hall.
    destruct (try_loaders_prefix name dirs skip_template
                (ends_with (loaders_to_try name skip_template chain))
                _ [] _ _ Hall) as (Hrun & _).
    rewrite app_nil_r in Hrun. rewrite Hrun. simpl. rewrite Hend. reflexivity.
  - intros pre l post e s1 w2 Hsplit Hpre Hl He.
    destruct (try_loaders_prefix name dirs skip_template
                (ends_with (loaders_to_try name skip_template chain))
                pre (l :: post) _ _ Hpre) as (Hrun & Hev & _).
    rewrite Hsplit, Hrun.
    rewrite (try_loaders_raised _ _ _ _ _ _ _ _ _ Hl He).
    split; [reflexivity|].
    simpl. rewrite Hev, map_app, app_assoc. reflexivity.
Qed.

(** C4: with a skip marker present, [find_template] walks the filtered
    chain when the marker's [loadname] is the name looked up, and the chain
    as it is when the names differ or the marker has no [loadname]. *)
Theorem find_template_filters_iff_same_name :
  forall (name : string) (dirs : Dirs) (m : Marker)
         (loaders : option (list Loader)) (chain : list Loader) (s s0 : State),
    loaders_or_default loaders s = (Ret chain, s0) ->
    (marker_loadname m = Some name ->
     find_template name dirs (Some m) loaders s
     = try_loaders name dirs (Some m) (skip_loaders chain (Some m)) s0)
    /\ (marker_loadname m <> Some name ->
        find_template name dirs (Some m) loaders s
        = try_loaders name dirs (Some m) chain s0).
Proof.
  intros name dirs m loaders chain s s0 Hchain.
  unfold find_template, bind. rewrite Hchain.
  unfold loaders_to_try, loadname_is. simpl. split; intros H.
  - rewrite H, String.eqb_refl. reflexivity.
  - destruct (marker_loadname m) as [n|]; [|reflexivity].
    destruct (String.eqb n name) eqn:E; [|reflexivity].
    apply String.eqb_eq in E. subst n. contradiction H. reflexivity.
Qed.

End Facts.

Lemma find_template_first_success_witness :
  find_template "a.html" None None
    (Some [Obj Demo.fs; Obj Demo.app; Obj Demo.db]) Demo.fresh
  = (Ret (RawSource "<p>a.html</p>",
          Some (mkOrigin "/app/a.html" (Obj Demo.app) "a.html" None)),
     mkState None Demo.settings 2
       [Invoked (Obj Demo.fs) "a.html"; Invoked (Obj Demo.app) "a.html"])
  /\ find_template "a.html" None
       (Some (mkMarker (Some "a.html") (Some (Method Demo.app "load_template_source"))))
       (Some [Obj Demo.app; Obj Demo.fs; Obj Demo.cached; Obj Demo.db]) Demo.fresh
     = (Ret (Compiled "cached a.html", None),
        mkState None Demo.settings 2
          [Invoked (Obj Demo.fs) "a.html"; Invoked (Obj Demo.cached) "a.html"]).
Proof.
  split.
  - refine (proj1 (find_template_first_success "a.html" None None
                     (Some [Obj Demo.fs; Obj Demo.app; Obj Demo.db])
                     [Obj Demo.fs; Obj Demo.app; Obj Demo.db]
                     [Obj Demo.fs] [Obj Demo.db] (Obj Demo.app)
                     (RawSource "<p>a.html</p>") (Some "/app/a.html")
                     Demo.fresh Demo.fresh
                     (mkState None Demo.settings 1 [Invoked (Obj Demo.fs) "a.html"]) 2
                     _ _ _ _)); reflexivity.
  - refine (proj1 (find_template_first_success "a.html" None
                     (Some (mkMarker (Some "a.html")
                              (Some (Method Demo.app "load_template_source"))))
                     (Some [Obj Demo.app; Obj Demo.fs; Obj Demo.cached; Obj Demo.db])
                     [Obj Demo.app; Obj Demo.fs; Obj Demo.cached; Obj Demo.db]
                     [Obj Demo.fs] [Obj Demo.db] (Obj Demo.cached)
                     (Compiled "cached a.html") None
                     Demo.fresh Demo.fresh
                     (mkState None Demo.settings 1 [Invoked (Obj Demo.fs) "a.html"]) 2
                     _ _ _ _)); reflexivity.
Defined.

Lemma find_template_not_found_or_propagates_witness :
  find_template "a.html" None None
    (Some [Obj Demo.fs; Obj Demo.fs_twin]) Demo.fresh
  = (Raise (TemplateDoesNotExist "a.html"),
     mkState None Demo.settings 2
       [Invoked (Obj Demo.fs) "a.html"; Invoked (Obj Demo.fs_twin) "a.html"])
  /\ find_template "a.html" None
       (Some (mkMarker (Some "a.html") (Some (Obj Demo.legacy))))
       (Some [Method Demo.alias "load_template"; Obj Demo.db; Obj Demo.legacy])
       Demo.fresh
     = (Raise AttributeError,
        mkState None Demo.settings 1 [Invoked (Obj Demo.alias) "a.html"])
  /\ find_template "a.html" None None
       (Some [Obj Demo.fs; Obj Demo.db; Obj Demo.app]) Demo.fresh
     = (Raise (OtherError "IOError"),
        mkState None Demo.settings 2
          [Invoked (Obj Demo.fs) "a.html"; Invoked (Obj Demo.db) "a.html"]).
Proof.
  split; [|split].
  - refine (proj1 (find_template_not_found_or_propagates "a.html" None None
                     (Some [Obj Demo.fs; Obj Demo.fs_twin])
                     [Obj Demo.fs; Obj Demo.fs_twin] Demo.fresh Demo.fresh _) _ _ _);
      reflexivity.
  - refine (proj1 (proj2 (find_template_not_found_or_propagates "a.html" None
                     (Some (mkMarker (Some "a.html") (Some (Obj Demo.legacy))))
                     (Some [Method Demo.alias "load_template"; Obj Demo.db;
                            Obj Demo.legacy])
                     [Method Demo.alias "load_template"; Obj Demo.db; Obj Demo.legacy]
                     Demo.fresh Demo.fresh _))
              AttributeError
              (mkState None Demo.settings 1 [Invoked (Obj Demo.alias) "a.html"])
              _ _); reflexivity.
  - refine (proj1 (proj2 (proj2 (find_template_not_found_or_propagates "a.html"
                     None None
                     (Some [Obj Demo.fs; Obj Demo.db; Obj Demo.app])
                     [Obj Demo.fs; Obj Demo.db; Obj Demo.app] Demo.fresh Demo.fresh _))
                   [Obj Demo.fs] (Obj Demo.db) [Obj Demo.app] (OtherError "IOError")
                   (mkState None Demo.settings 1 [Invoked (Obj Demo.fs) "a.html"]) 2
                   _ _ _ _)); reflexivity.
Defined.

Lemma find_template_filters_iff_same_name_witness :
  find_template "a.html" None
    (Some (mkMarker (Some "a.html") (Some (Obj Demo.app))))
    (Some [Obj Demo.app; Obj Demo.fs; Obj Demo.cached]) Demo.fresh
  = try_loaders "a.html" None
      (Some (mkMarker (Some "a.html") (Some (Obj Demo.app))))
      [Obj Demo.fs; Obj Demo.cached] Demo.fresh
  /\ find_template "b.html" None
       (Some (mkMarker (Some "a.html") (Some (Obj Demo.app))))
       (Some [Obj Demo.app; Obj Demo.fs; Obj Demo.cached]) Demo.fresh
     = try_loaders "b.html" None
         (Some (mkMarker (Some "a.html") (Some (Obj Demo.app))))
         [Obj Demo.app; Obj Demo.fs; Obj Demo.cached] Demo.fresh
  /\ find_template "b.html" None
       (Some (mkMarker None (Some (Obj Demo.app))))
       (Some [Obj Demo.app; Obj Demo.fs; Obj Demo.cached]) Demo.fresh
     = try_loaders "b.html" None
         (Some (mkMarker None (Some (Obj Demo.app))))
         [Obj Demo.app; Obj Demo.fs; Obj Demo.cached] Demo.fresh.
Proof.
  split; [|split].
  - refine (proj1 (find_template_filters_iff_same_name "a.html" None
                     (mkMarker (Some "a.html") (Some (Obj Demo.app)))
                     (Some [Obj Demo.app; Obj Demo.fs; Obj Demo.cached])
                     [Obj Demo.app; Obj Demo.fs; Obj Demo.cached]
                     Demo.fresh Demo.fresh _) _); reflexivity.
  - refine (proj2 (find_template_filters_iff_same_name "b.html" None
                     (mkMarker (Some "a.html") (Some (Obj Demo.app)))
                     (Some [Obj Demo.app; Obj Demo.fs; Obj Demo.cached])
                     [Obj Demo.app; Obj Demo.fs; Obj Demo.cached]
                     Demo.fresh Demo.fresh _) _); [reflexivity | simpl; discriminate].
  - refine (proj2 (find_template_filters_iff_same_name "b.html" None
                     (mkMarker None (Some (Obj Demo.app)))
                     (Some [Obj Demo.app; Obj Demo.fs; Obj Demo.cached])
                     [Obj Demo.app; Obj Demo.fs; Obj Demo.cached]
                     Demo.fresh Demo.fresh _) _); [reflexivity | simpl; discriminate].
Defined.

(** ** The selector *)

Lemma existsb_eqb_In (x : string) (l : list string) :
  existsb (String.eqb x) l = true <-> In x l.
Proof.
  rewrite existsb_exists. split.
  - intros (y & Hy & E). apply String.eqb_eq in E. subst y. exact Hy.
  - intros H. exists x. split; [exact H|apply String.eqb_refl].
Qed.

(** What [first_seen] keeps: the messages not seen before, ... *)
Lemma first_seen_In (msgs : list string) :
  forall seen x, In x (first_seen seen msgs) <-> In x msgs /\ ~ In x seen.
Proof.
  induction msgs as [|m rest IH]; intros seen x; simpl.
  - tauto.
  - destruct (existsb (String.eqb m) seen) eqn:E.
    + apply existsb_eqb_In in E. rewrite IH. split.
      * intros [H1 H2]. auto.
      * intros [[<-|H1] H2]; [contradiction|auto].
    + assert (Hm : ~ In m seen).
      { intros H. apply existsb_eqb_In in H. congruence. }
      simpl. rewrite IH. simpl. split.
      * intros [<-|[H1 H2]]; [auto|]. split; [auto|]. intros H. apply H2. auto.
      * intros [[<-|H1] H2]; [auto|].
        destruct (string_dec m x) as [->|Hne]; [auto|]. right. split; [exact H1|].
        intros [H|H]; [contradiction|contradiction].
Qed.

(** ... each of them once. *)
Lemma first_seen_NoDup (msgs : list string) :
  forall seen, NoDup (first_seen seen msgs).
Proof.
  induction msgs as [|m rest IH]; intros seen; simpl.
  - constructor.
  - destruct (existsb (String.eqb m) seen); [apply IH|].
    constructor; [|apply IH].
    rewrite first_seen_In. intros [_ H]. apply H. left. reflexivity.
Qed.

Section Selector.
Context {T : Types} {C : Collaborators}.

(** The loop passes a prefix of candidates that all fail with
    [TemplateDoesNotExist], gathering their messages: [not_found] grows by
    the messages not seen before, in the order they come. *)
Lemma select_loop_prefix (dirs : Dirs) (skip_template : option Marker)
    (pre rest : list string) :
  forall not_found seen s msgs s1,
    (forall x, existsb (String.eqb x) not_found = existsb (String.eqb x) seen) ->
    all_candidates_fail dirs skip_template pre s = Some (msgs, s1) ->
    select_loop dirs skip_template (pre ++ rest) not_found s
    = select_loop dirs skip_template rest (not_found ++ first_seen seen msgs) s1.
Proof.
  induction pre as [|n pre IH]; intros not_found seen s msgs s1 Hseen H.
  - simpl in H. injection H as <- <-. simpl. rewrite app_nil_r. reflexivity.
  - simpl in H.
    destruct (get_template n dirs skip_template s) as [r s'] eqn:E.
    destruct r as [t|e]; [discriminate|].
    destruct e as [msg| | |]; try discriminate.
    destruct (all_candidates_fail dirs skip_template pre s') as [[msgs' s'']|] eqn:E';
      [|discriminate].
    injection H as <- <-.
    simpl. unfold try_except_TemplateDoesNotExist at 1. rewrite E.
    unfold not_in. rewrite (Hseen msg).
    destruct (existsb (String.eqb msg) seen) eqn:Hmsg; simpl.
    + rewrite (IH not_found seen s' msgs' s'' Hseen E'). reflexivity.
    + rewrite (IH (not_found ++ [msg]) (msg :: seen) s' msgs' s'').
      * rewrite <- app_assoc. reflexivity.
      * intros x. rewrite existsb_app. simpl.
        rewrite (Hseen x), orb_false_r. apply orb_comm.
      * exact E'.
Qed.

(** C5 as the code has it: an empty list of candidates makes
    [select_template] raise [TemplateDoesNotExist], with the message
    "No template names provided", before any candidate or loader is tried;
    the module has no other exception for it. *)
Theorem select_template_empty_raises_not_found :
  forall (dirs : Dirs) (skip_template : option Marker) (s : State),
    select_template [] dirs skip_template s
    = (Raise (TemplateDoesNotExist "No template names provided"), s).
Proof.
  intros dirs skip_template s.
  unfold select_template, raise.
  reflexivity.
Qed.

(** C6: when every candidate of a non-empty list fails with
    [TemplateDoesNotExist], [select_template] raises [TemplateDoesNotExist]
    with the failure messages joined by ", ", each distinct message once, in
    the order it was first seen; when a candidate succeeds after candidates
    that failed so, its template is returned in the state its lookup left, no
    later candidate being tried. *)
Theorem select_template_aggregates_or_returns_first :
  forall (dirs : Dirs) (skip_template : option Marker),
    (forall names s msgs s',
        names <> [] ->
        all_candidates_fail dirs skip_template names s = Some (msgs, s') ->
        select_template names dirs skip_template s
        = (Raise (TemplateDoesNotExist (String.concat ", " (first_seen [] msgs))), s')
        /\ NoDup (first_seen [] msgs)
        /\ (forall x, In x (first_seen [] msgs) <-> In x msgs))
    /\ (forall pre n post s msgs s1 t s2,
        all_candidates_fail dirs skip_template pre s = Some (msgs, s1) ->
        get_template n dirs skip_template s1 = (Ret t, s2) ->
        select_template (pre ++ n :: post) dirs skip_template s = (Ret t, s2)).
Proof.
  intros dirs skip_template. split.
  - intros names s msgs s' Hne H. split; [|split].
    + destruct names as [|n names]; [contradiction|].
      unfold select_template.
      rewrite <- (app_nil_r (n :: names)).
      rewrite (select_loop_prefix dirs skip_template (n :: names) [] [] [] s msgs s'
                 (fun _ => eq_refl) H).
      reflexivity.
    + apply first_seen_NoDup.
    + intros x. rewrite first_seen_In. simpl. tauto.
  - intros pre n post s msgs s1 t s2 Hpre Hn.
    assert (Hloop : select_template (pre ++ n :: post) dirs skip_template s
                    = select_loop dirs skip_template (pre ++ n :: post) [] s).
    { destruct pre; reflexivity. }
    rewrite Hloop.
    rewrite (select_loop_prefix dirs skip_template pre (n :: post) [] [] s msgs s1
               (fun _ => eq_refl) Hpre).
    simpl. unfold try_except_TemplateDoesNotExist. rewrite Hn. reflexivity.
Qed.

End Selector.

(** C5, against the claim: the exception of the empty call is a
    [TemplateDoesNotExist], not one of another kind. *)
Lemma select_template_empty_is_not_found :
  ~ (exists e s',
        select_template [] None None Demo.fresh = (Raise e, s')
        /\ is_TemplateDoesNotExist e = false).
Proof.
  intros (e & s' & H & He).
  unfold select_template, raise in H.
  injection H as <- _. discriminate He.
Qed.

Lemma select_template_aggregates_or_returns_first_witness :
  select_template ["a.html"; "b.html"; "a.html"] None None (Demo.warm [Obj Demo.fs])
  = (Raise (TemplateDoesNotExist "a.html, b.html"),
     mkState (Some [Obj Demo.fs]) Demo.settings 3
       [Invoked (Obj Demo.fs) "a.html"; Invoked (Obj Demo.fs) "b.html";
        Invoked (Obj Demo.fs) "a.html"])
  /\ select_template (["a.html"] ++ "b.html" :: ["c.html"]) None
       (Some (mkMarker (Some "a.html") (Some (Obj Demo.app))))
       (Demo.warm [Obj Demo.fs; Obj Demo.app])
     = (Ret "compiled <p>b.html</p>",
        mkState (Some [Obj Demo.fs; Obj Demo.app]) Demo.settings 3
          [Invoked (Obj Demo.fs) "b.html"; Invoked (Obj Demo.app) "b.html";
           Compiling (Some "b.html")]).
Proof.
  split.
  - refine (proj1 (proj1 (select_template_aggregates_or_returns_first None None)
                     ["a.html"; "b.html"; "a.html"] (Demo.warm [Obj Demo.fs])
                     ["a.html"; "b.html"; "a.html"]
                     (mkState (Some [Obj Demo.fs]) Demo.settings 3
                        [Invoked (Obj Demo.fs) "a.html"; Invoked (Obj Demo.fs) "b.html";
                         Invoked (Obj Demo.fs) "a.html"])
                     _ _)); [discriminate | reflexivity].
  - refine (proj2 (select_template_aggregates_or_returns_first None
                     (Some (mkMarker (Some "a.html") (Some (Obj Demo.app)))))
              ["a.html"] "b.html" ["c.html"]
              (Demo.warm [Obj Demo.fs; Obj Demo.app]) ["a.html"]
              (Demo.warm [Obj Demo.fs; Obj Demo.app])
              "compiled <p>b.html</p>"
              (mkState (Some [Obj Demo.fs; Obj Demo.app]) Demo.settings 3
                 [Invoked (Obj Demo.fs) "b.html"; Invoked (Obj Demo.app) "b.html";
                  Compiling (Some "b.html")])
              _ _); reflexivity.
Defined.

(** ** The registry *)

Section Registry.
Context {T : Types} {C : Collaborators}.

Lemma keeps_ret {A : Type} (a : A) : keeps_stored_chain (ret a).
Proof. intros s chain H. exact H. Qed.

Lemma keeps_raise {A : Type} (e : Exn) : keeps_stored_chain (raise (A := A) e).
Proof. intros s chain H. exact H. Qed.

Lemma keeps_bind {A B : Type} (m : M State A) (k : A -> M State B) :
  keeps_stored_chain m -> (forall a, keeps_stored_chain (k a)) ->
  keeps_stored_chain (bind m k).
Proof.
  intros Hm Hk s chain Hs. unfold bind. specialize (Hm s chain Hs).
  destruct (m s) as [[a|e] s']; simpl in Hm; [apply Hk|]; exact Hm.
Qed.

Lemma keeps_try {A : Type} (body : M State A) (handler : string -> M State A) :
  keeps_stored_chain body -> (forall a, keeps_stored_chain (handler a)) ->
  keeps_stored_chain (try_except_TemplateDoesNotExist body handler).
Proof.
  intros Hb Hh s chain Hs. unfold try_except_TemplateDoesNotExist.
  specialize (Hb s chain Hs).
  destruct (body s) as [[a|e] s']; simpl in Hb; [exact Hb|].
  destruct e; try exact Hb. apply Hh. exact Hb.
Qed.

Lemma keeps_lift {A : Type} (f : External A) : keeps_stored_chain (lift f).
Proof.
  intros s chain Hs. unfold lift. destruct (f (world s)). exact Hs.
Qed.

Lemma keeps_tell (e : Event) : keeps_stored_chain (tell e).
Proof. intros s chain Hs. exact Hs. Qed.

Lemma keeps_external {A : Type} (e : Event) (f : External A) :
  keeps_stored_chain (external e f).
Proof.
  unfold external. apply keeps_bind; [apply keeps_tell|].
  intros _. apply keeps_lift.
Qed.

(** A stored chain is returned as it is, and nothing else happens. *)
Lemma get_template_source_loaders_hit (s : State) (chain : list Loader) :
  template_source_loaders s = Some chain ->
  get_template_source_loaders s = (Ret chain, s).
Proof. intros H. unfold get_template_source_loaders. rewrite H. reflexivity. Qed.

(** A chain that is returned is stored. *)
Lemma get_template_source_loaders_stores (s s' : State) (chain : list Loader) :
  get_template_source_loaders s = (Ret chain, s') ->
  template_source_loaders s' = Some chain.
Proof.
  unfold get_template_source_loaders.
  destruct (template_source_loaders s) as [stored|] eqn:E.
  - intros H. injection H as <- <-. exact E.
  - unfold bind.
    destruct (resolve_specs (TEMPLATE_LOADERS s) [] s) as [[loaders|e] s1];
      intros H; [|discriminate].
    injection H as <- <-. reflexivity.
Qed.

Lemma keeps_get_template_source_loaders :
  keeps_stored_chain get_template_source_loaders.
Proof.
  intros s chain Hs. rewrite (get_template_source_loaders_hit s chain Hs). exact Hs.
Qed.

Lemma keeps_try_loaders (name : string) (dirs : Dirs)
    (skip_template : option Marker) (ended : option Exn) (loaders : list Loader) :
  keeps_stored_chain (for_each_loader name dirs skip_template ended loaders).
Proof.
  induction loaders as [|l rest IH]; simpl.
  - destruct ended; apply keeps_raise.
  - apply keeps_try; [|intros _; exact IH].
    apply keeps_bind; [apply keeps_external|].
    intros [source dn]. apply keeps_ret.
Qed.

Lemma keeps_find_template (name : string) (dirs : Dirs)
    (skip_template : option Marker) (loaders : option (list Loader)) :
  keeps_stored_chain (find_template name dirs skip_template loaders).
Proof.
  unfold find_template. apply keeps_bind.
  - destruct loaders; [apply keeps_ret|apply keeps_get_template_source_loaders].
  - intros chain. unfold try_loaders. apply keeps_try_loaders.
Qed.

Lemma keeps_get_template (name : string) (dirs : Dirs)
    (skip_template : option Marker) :
  keeps_stored_chain (get_template name dirs skip_template).
Proof.
  unfold get_template. apply keeps_bind; [apply keeps_find_template|].
  intros [[source|t] origin]; [apply keeps_external|apply keeps_ret].
Qed.

Lemma keeps_select_loop (dirs : Dirs) (skip_template : option Marker)
    (names : list string) :
  forall not_found,
    keeps_stored_chain (select_loop dirs skip_template names not_found).
Proof.
  induction names as [|n rest IH]; intros not_found; simpl.
  - apply keeps_raise.
  - apply keeps_try; [apply keeps_get_template|]. intros msg. apply IH.
Qed.

Lemma keeps_select_template (names : list string) (dirs : Dirs)
    (skip_template : option Marker) :
  keeps_stored_chain (select_template names dirs skip_template).
Proof.
  unfold select_template. destruct names; [apply keeps_raise|apply keeps_select_loop].
Qed.

Lemma keeps_load_named (template_name : TemplateName) (dirs : Dirs) :
  keeps_stored_chain (load_named template_name dirs).
Proof.
  destruct template_name; [apply keeps_get_template|apply keeps_select_template].
Qed.

(** C8: once [get_template_source_loaders] has stored the chain it
    resolved, every call returns that chain and does nothing else: no loader
    spec is imported again, the state is the one it was called in.  The
    functions of the module never take a stored chain away, so only a reset
    of [template_source_loaders] from outside leads to a second
    computation. *)
Theorem get_template_source_loaders_memoized :
  (forall s chain,
      template_source_loaders s = Some chain ->
      get_template_source_loaders s = (Ret chain, s))
  /\ (forall s chain s',
      get_template_source_loaders s = (Ret chain, s') ->
      template_source_loaders s' = Some chain
      /\ get_template_source_loaders s' = (Ret chain, s'))
  /\ (forall s chain,
      template_source_loaders s = Some chain ->
      (forall name dirs skip_template loaders,
          template_source_loaders
            (snd (find_template name dirs skip_template loaders s)) = Some chain)
      /\ (forall name dirs skip_template,
          template_source_loaders
            (snd (get_template name dirs skip_template s)) = Some chain)
      /\ (forall names dirs skip_template,
          template_source_loaders
            (snd (select_template names dirs skip_template s)) = Some chain)
      /\ (forall template_name dictionary context_instance dirs,
          template_source_loaders
            (snd (render_to_string template_name dictionary context_instance dirs s))
          = Some chain)).
Proof.
  split; [exact get_template_source_loaders_hit|split].
  - intros s chain s' H.
    pose proof (get_template_source_loaders_stores _ _ _ H) as Hs.
    split; [exact Hs|apply get_template_source_loaders_hit; exact Hs].
  - intros s chain Hs. repeat split.
    + intros. apply keeps_find_template. exact Hs.
    + intros. apply keeps_get_template. exact Hs.
    + intros. apply keeps_select_template. exact Hs.
    + intros template_name dictionary context_instance dirs.
      unfold render_to_string.
      pose proof (keeps_load_named template_name dirs s chain Hs) as Hl.
      destruct (load_named template_name dirs s) as [[t|e] s1]; simpl in Hl;
        [|exact Hl].
      destruct context_instance as [c|].
      * destruct (render t _ _) as [[r c'] w]. exact Hl.
      * destruct (render t _ _) as [[r c'] w]. exact Hl.
Qed.

(** ** Rendering *)

(** C9: with a context passed, [render_to_string] renders on that context
    with the dictionary pushed on top, and leaves the scope of the push on a
    return and on an exception of the renderer alike; a failed lookup never
    touches the context.  With a renderer that keeps the stack discipline,
    the caller's context is back in its prior state on every path.  With no
    context passed, the renderer gets a fresh context made of the dictionary
    alone, and no context is handed back. *)
Theorem render_to_string_scoped_context :
  forall (template_name : TemplateName) (dictionary : option Dict) (dirs : Dirs)
         (s : State),
    (forall c,
        (forall e s1,
            load_named template_name dirs s = (Raise e, s1) ->
            render_to_string template_name dictionary (Some c) dirs s
            = (Raise e, Some c, s1))
        /\ (forall t s1 r c' w,
            load_named template_name dirs s = (Ret t, s1) ->
            render t (push (match dictionary with Some d => d | None => empty_dict end) c)
                   (world s1) = (r, c', w) ->
            render_to_string template_name dictionary (Some c) dirs s
            = (r, Some (scope_exit c'), set_world w (log (Rendering t) s1)))
        /\ (renderer_balanced_on c ->
            snd (fst (render_to_string template_name dictionary (Some c) dirs s))
            = Some c))
    /\ (forall t s1 r c' w,
        load_named template_name dirs s = (Ret t, s1) ->
        render t (Context_init (match dictionary with Some d => d | None => empty_dict end))
               (world s1) = (r, c', w) ->
        render_to_string template_name dictionary None dirs s
        = (r, None, set_world w (log (Rendering t) s1))).
Proof.
  intros template_name dictionary dirs s. split.
  - intros c. split; [|split].
    + intros e s1 H. unfold render_to_string. rewrite H. reflexivity.
    + intros t s1 r c' w H Hr. unfold render_to_string. rewrite H. simpl.
      rewrite Hr. reflexivity.
    + intros Hbal. unfold render_to_string.
      destruct (load_named template_name dirs s) as [[t|e] s1]; [|reflexivity].
      destruct (Hbal t (match dictionary with Some d => d | None => empty_dict end)
                  (world (log (Rendering t) s1))) as (r & top & w' & Hr).
      rewrite Hr. reflexivity.
  - intros t s1 r c' w H Hr. unfold render_to_string. rewrite H. simpl.
    rewrite Hr. reflexivity.
Qed.

(** ** Class based loaders *)

(** C10: when [load_template_source] returns and compiling what it
    returned raises [TemplateDoesNotExist], [BaseLoader.load_template]
    returns the source and its display name; a loader called through
    [BaseLoader.__call__] therefore succeeds in [find_template], which
    returns the raw source. *)
Theorem load_template_keeps_source_when_compile_not_found :
  forall (self : LoaderObject) (name : string) (dirs : Dirs)
         (skip_template : option Marker) (w w1 w2 : World)
         (source : string) (dn : option string) (msg : string),
    load_template_source self name dirs w = (Ret (source, dn), w1) ->
    Template_init source
      (make_origin dn (Method self "load_template_source") name dirs)
      (Some name) w1 = (Raise (TemplateDoesNotExist msg), w2) ->
    load_template self name dirs skip_template w = (Ret (RawSource source, dn), w2)
    /\ (forall chain rest s,
        skip_if_same_name name skip_template chain = Obj self :: rest ->
        world s = w ->
        invoke (Obj self) name dirs skip_template w
        = BaseLoader_call self name dirs skip_template w ->
        find_template name dirs skip_template (Some chain) s
        = (Ret (RawSource source, make_origin dn (Obj self) name dirs),
           set_world w2 (log (Invoked (Obj self) name) s))).
Proof.
  intros self name dirs skip_template w w1 w2 source dn msg Hsrc Hcomp.
  assert (Hload : load_template self name dirs skip_template w
                  = (Ret (RawSource source, dn), w2)).
  { unfold load_template, bind at 1. rewrite Hsrc.
    unfold try_except_TemplateDoesNotExist, bind, get_template_from_string.
    rewrite Hcomp. reflexivity. }
  split; [exact Hload|].
  intros chain rest s Hchain Hw Hcall.
  rewrite (find_template_unfold name dirs skip_template (Some chain) chain s s eq_refl).
  rewrite Hchain. apply try_loaders_found.
  rewrite Hw, Hcall. exact Hload.
Qed.

End Registry.

Lemma get_template_source_loaders_memoized_witness :
  get_template_source_loaders Demo.resolved
  = (Ret [Obj Demo.fs; Obj Demo.app], Demo.resolved)
  /\ (get_template_source_loaders Demo.fresh
      = (Ret [Obj Demo.fs; Obj Demo.app], Demo.resolved)
      /\ template_source_loaders Demo.resolved = Some [Obj Demo.fs; Obj Demo.app]
      /\ get_template_source_loaders Demo.resolved
         = (Ret [Obj Demo.fs; Obj Demo.app], Demo.resolved))
  /\ template_source_loaders
       (snd (select_template ["a.html"; "b.html"] None None (Demo.warm [])))
     = Some [].
Proof.
  split; [|split].
  - refine (proj1 get_template_source_loaders_memoized Demo.resolved
              [Obj Demo.fs; Obj Demo.app] _); reflexivity.
  - split; [reflexivity|].
    refine (proj1 (proj2 get_template_source_loaders_memoized) Demo.fresh
              [Obj Demo.fs; Obj Demo.app] Demo.resolved _); reflexivity.
  - refine (proj1 (proj2 (proj2 (proj2 (proj2 get_template_source_loaders_memoized)
                                   (Demo.warm []) [] _)))
              ["a.html"; "b.html"] None None); reflexivity.
Defined.

Lemma demo_renderer_balanced (c : Context) :
  renderer_balanced_on (C := Demo.plain) c.
Proof.
  intros t d w. unfold render, Demo.plain, Demo.demo_render, push.
  destruct (String.eqb t "cached boom.html"); eexists _, _, _; reflexivity.
Defined.

Lemma render_to_string_scoped_context_witness :
  render_to_string (Single "a.html") (Some [("title", "Home")]) (Some Demo.outer) None
    (Demo.warm [Obj Demo.app])
  = (Ret "rendered compiled <p>a.html</p>", Some Demo.outer,
     mkState (Some [Obj Demo.app]) Demo.settings 3
       [Invoked (Obj Demo.app) "a.html"; Compiling (Some "a.html");
        Rendering "compiled <p>a.html</p>"])
  /\ snd (fst (render_to_string (Single "boom.html") None (Some Demo.outer) None
                 (Demo.warm [Obj Demo.cached]))) = Some Demo.outer
  /\ render_to_string (Several ["a.html"; "b.html"]) None (Some Demo.outer) None
       (Demo.warm [Obj Demo.fs])
     = (Raise (TemplateDoesNotExist "a.html, b.html"), Some Demo.outer,
        mkState (Some [Obj Demo.fs]) Demo.settings 2
          [Invoked (Obj Demo.fs) "a.html"; Invoked (Obj Demo.fs) "b.html"])
  /\ render_to_string (Single "boom.html") (Some [("title", "Home")]) None None
       (Demo.warm [Obj Demo.cached])
     = (Raise (OtherError "ValueError"), None,
        mkState (Some [Obj Demo.cached]) Demo.settings 2
          [Invoked (Obj Demo.cached) "boom.html"; Rendering "cached boom.html"]).
Proof.
  split; [|split; [|split]].
  - refine (proj1 (proj2 (proj1 (render_to_string_scoped_context
                                   (Single "a.html") (Some [("title", "Home")]) None
                                   (Demo.warm [Obj Demo.app]))
                            Demo.outer))
              "compiled <p>a.html</p>"
              (mkState (Some [Obj Demo.app]) Demo.settings 2
                 [Invoked (Obj Demo.app) "a.html"; Compiling (Some "a.html")])
              (Ret "rendered compiled <p>a.html</p>")
              ((("forloop", "0") :: [("title", "Home")]) :: Demo.outer) 3 _ _);
      reflexivity.
  - exact (proj2 (proj2 (proj1 (render_to_string_scoped_context
                                  (Single "boom.html") None None
                                  (Demo.warm [Obj Demo.cached]))
                           Demo.outer))
             (demo_renderer_balanced Demo.outer)).
  - refine (proj1 (proj1 (render_to_string_scoped_context
                            (Several ["a.html"; "b.html"]) None None
                            (Demo.warm [Obj Demo.fs]))
                     Demo.outer)
              (TemplateDoesNotExist "a.html, b.html")
              (mkState (Some [Obj Demo.fs]) Demo.settings 2
                 [Invoked (Obj Demo.fs) "a.html"; Invoked (Obj Demo.fs) "b.html"])
              _); reflexivity.
  - refine (proj2 (render_to_string_scoped_context
                     (Single "boom.html") (Some [("title", "Home")]) None
                     (Demo.warm [Obj Demo.cached]))
              "cached boom.html"
              (mkState (Some [Obj Demo.cached]) Demo.settings 1
                 [Invoked (Obj Demo.cached) "boom.html"])
              (Raise (OtherError "ValueError"))
              [[("forloop", "0"); ("title", "Home")]] 2 _ _); reflexivity.
Defined.

Lemma load_template_keeps_source_when_compile_not_found_witness :
  load_template (C := Demo.with_base) Demo.base "page.html" None None 0
  = (Ret (RawSource Demo.extends_missing, Some "/base/page.html"), 2)
  /\ find_template (C := Demo.with_base) "page.html" None None
       (Some [Obj Demo.base; Obj Demo.app]) Demo.fresh
     = (Ret (RawSource Demo.extends_missing,
             Some (mkOrigin "/base/page.html" (Obj Demo.base) "page.html" None)),
        mkState None Demo.settings 2 [Invoked (Obj Demo.base) "page.html"]).
Proof.
  split.
  - refine (proj1 (load_template_keeps_source_when_compile_not_found
                     (C := Demo.with_base) Demo.base "page.html" None None 0 1 2
                     Demo.extends_missing (Some "/base/page.html") "missing.html"
                     _ _)); reflexivity.
  - refine (proj2 (load_template_keeps_source_when_compile_not_found
                     (C := Demo.with_base) Demo.base "page.html" None None 0 1 2
                     Demo.extends_missing (Some "/base/page.html") "missing.html"
                     _ _)
              [Obj Demo.base; Obj Demo.app] [Obj Demo.app] Demo.fresh _ _ _);
      reflexivity.
Defined.

(** * Further properties of the module *)

(** ** The resolver *)

Section Resolver_more.
Context {T : Types} {C : Collaborators}.

(** What an origin that [make_origin] made holds. *)
Lemma make_origin_some (dn : option string) (l : Loader) (name : string)
    (dirs : Dirs) (o : Origin) :
  make_origin dn l name dirs = Some o ->
  dn = Some (display_name o) /\ display_name o <> ""
  /\ origin_loader o = l /\ loadname o = name /\ origin_dirs o = dirs.
Proof.
  unfold make_origin. destruct dn as [d|]; [|discriminate].
  destruct (String.eqb d "") eqn:E; [discriminate|].
  intros H. injection H as <-. simpl. apply String.eqb_neq in E. auto.
Qed.

(** The three ways one turn of the loop of [find_template] can go. *)
Lemma try_loaders_cons_cases (name : string) (dirs : Dirs)
    (skip_template : option Marker) (ended : option Exn) (l : Loader)
    (rest : list Loader) (s : State) :
  (exists c dn w,
      invoke l name dirs skip_template (world s) = (Ret (c, dn), w)
      /\ for_each_loader name dirs skip_template ended (l :: rest) s
         = (Ret (c, make_origin dn l name dirs),
            set_world w (log (Invoked l name) s)))
  \/ (exists msg w,
      invoke l name dirs skip_template (world s)
      = (Raise (TemplateDoesNotExist msg), w)
      /\ for_each_loader name dirs skip_template ended (l :: rest) s
         = for_each_loader name dirs skip_template ended rest
             (set_world w (log (Invoked l name) s)))
  \/ (exists e w,
      invoke l name dirs skip_template (world s) = (Raise e, w)
      /\ is_TemplateDoesNotExist e = false
      /\ for_each_loader name dirs skip_template ended (l :: rest) s
         = (Raise e, set_world w (log (Invoked l name) s))).
Proof.
  destruct (invoke l name dirs skip_template (world s)) as [[[c dn]|e] w] eqn:E.
  - left. exists c, dn, w. split; [reflexivity|].
    apply try_loaders_found. exact E.
  - destruct (is_TemplateDoesNotExist e) eqn:He.
    + destruct e as [msg| | |]; try discriminate.
      right. left. exists msg, w. split; [reflexivity|].
      apply (try_loaders_not_found _ _ _ _ _ _ _ _ _ E).
    + right. right. exists e, w. split; [reflexivity|]. split; [exact He|].
      apply try_loaders_raised; assumption.
Qed.

(** Every run of the loop: the loaders called are a prefix of the chain,
    in order; an origin that comes back was made for a loader of the chain,
    with the name and directories asked for; a [TemplateDoesNotExist] that
    comes out has the name asked for and follows the failure of every
    loader. *)
Lemma try_loaders_shape (name : string) (dirs : Dirs)
    (skip_template : option Marker) (ended : option Exn) (chain : list Loader) :
  (forall e, ended = Some e -> is_TemplateDoesNotExist e = false) ->
  forall s r s',
    for_each_loader name dirs skip_template ended chain s = (r, s') ->
    (exists k, events s' = events s ++ map (fun x => Invoked x name) (firstn k chain))
    /\ match r with
       | Ret (c, o) =>
           forall o', o = Some o' ->
             loadname o' = name /\ origin_dirs o' = dirs
             /\ display_name o' <> "" /\ In (origin_loader o') chain
       | Raise (TemplateDoesNotExist m) =>
           m = name
           /\ all_raise_not_found name dirs skip_template chain s = Some s'
       | Raise _ => True
       end.
Proof.
  intros Hended. induction chain as [|l rest IH]; intros s r s' H.
  - simpl in H. split.
    + exists 0. simpl. rewrite app_nil_r.
      destruct ended; unfold raise in H; injection H as <- <-; reflexivity.
    + destruct ended as [e|]; unfold raise in H; injection H as <- <-.
      * specialize (Hended e eq_refl). destruct e; try exact I. discriminate.
      * split; reflexivity.
  - destruct (try_loaders_cons_cases name dirs skip_template ended l rest s)
      as [(c & dn & w & E & Hrun)|[(msg & w & E & Hrun)|(e & w & E & He & Hrun)]];
      rewrite Hrun in H.
    + injection H as <- <-. split.
      * exists 1. reflexivity.
      * intros o' Ho. apply make_origin_some in Ho as (_ & Hd & Hl & Hn & Hdirs).
        repeat split; try assumption. left. symmetry. exact Hl.
    + destruct (IH _ _ _ H) as ((k & Hev) & Hres). split.
      * exists (S k). rewrite Hev. simpl. rewrite <- app_assoc. reflexivity.
      * destruct r as [[c o]|e].
        -- intros o' Ho. destruct (Hres o' Ho) as (H1 & H2 & H3 & H4).
           repeat split; try assumption. right. exact H4.
        -- destruct e; try exact I. destruct Hres as [Hm Hall].
           split; [exact Hm|]. simpl. rewrite external_run, E. exact Hall.
    + injection H as <- <-. split.
      * exists 1. reflexivity.
      * destruct e; try exact I. discriminate He.
Qed.

(** X1: an origin returned by [find_template] is never anonymous: its
    display name is not empty, it records the name and the directories that
    were asked for, and its loader is one of the chain that was walked. *)
Theorem find_template_origin_records_request :
  forall (name : string) (dirs : Dirs) (skip_template : option Marker)
         (loaders : option (list Loader)) (chain : list Loader)
         (s s0 s' : State) (content : Content) (o : Origin),
    loaders_or_default loaders s = (Ret chain, s0) ->
    find_template name dirs skip_template loaders s = (Ret (content, Some o), s') ->
    loadname o = name /\ origin_dirs o = dirs /\ display_name o <> ""
    /\ In (origin_loader o) (skip_if_same_name name skip_template chain).
Proof.
  intros name dirs skip_template loaders chain s s0 s' content o Hchain H.
  rewrite (find_template_unfold _ _ _ _ _ _ _ Hchain) in H.
  apply (try_loaders_shape _ _ _ _ _ (loaders_to_try_ends _ _ _)) in H as [_ Hres].
  apply Hres. reflexivity.
Qed.

(** X2: a [TemplateDoesNotExist] that leaves [find_template] always
    carries the name that was asked for, and it leaves only after every
    loader of the walked chain was called and raised
    [TemplateDoesNotExist]. *)
Theorem find_template_not_found_means_all_failed :
  forall (name : string) (dirs : Dirs) (skip_template : option Marker)
         (loaders : option (list Loader)) (chain : list Loader)
         (s s0 s' : State) (msg : string),
    loaders_or_default loaders s = (Ret chain, s0) ->
    find_template name dirs skip_template loaders s
    = (Raise (TemplateDoesNotExist msg), s') ->
    msg = name
    /\ all_raise_not_found name dirs skip_template
         (skip_if_same_name name skip_template chain) s0 = Some s'
    /\ events s'
       = events s0
         ++ map (fun x => Invoked x name) (skip_if_same_name name skip_template chain).
Proof.
  intros name dirs skip_template loaders chain s s0 s' msg Hchain H.
  rewrite (find_template_unfold _ _ _ _ _ _ _ Hchain) in H.
  apply (try_loaders_shape _ _ _ _ _ (loaders_to_try_ends _ _ _)) in H
    as [_ [Hm Hall]].
  split; [exact Hm|]. split; [exact Hall|].
  destruct (try_loaders_prefix name dirs skip_template None _ [] _ _ Hall)
    as (_ & Hev & _).
  exact Hev.
Qed.

(** X3: whatever the outcome, the loaders [find_template] calls are a
    prefix of the chain it walks, each called once, in chain order, and the
    module asks nothing else of its collaborators. *)
Theorem find_template_calls_a_prefix :
  forall (name : string) (dirs : Dirs) (skip_template : option Marker)
         (loaders : option (list Loader)) (chain : list Loader) (s s0 : State),
    loaders_or_default loaders s = (Ret chain, s0) ->
    exists k,
      events (snd (find_template name dirs skip_template loaders s))
      = events s0
        ++ map (fun x => Invoked x name)
             (firstn k (skip_if_same_name name skip_template chain)).
Proof.
  intros name dirs skip_template loaders chain s s0 Hchain.
  rewrite (find_template_unfold _ _ _ _ _ _ _ Hchain).
  destruct (for_each_loader name dirs skip_template
              (ends_with (loaders_to_try name skip_template chain))
              (skip_if_same_name name skip_template chain) s0) as [r s'] eqn:E.
  apply (try_loaders_shape _ _ _ _ _ (loaders_to_try_ends _ _ _)) in E as [Hk _].
  exact Hk.
Qed.

(** X4: without an explicit list, [find_template] walks the chain of the
    registry; once the registry has resolved, the chain stays stored whether
    the template is found or not; an exception of the resolution leaves
    [find_template] before any loader is called. *)
Theorem find_template_default_chain :
  forall (name : string) (dirs : Dirs) (skip_template : option Marker) (s s0 : State),
    (forall chain,
        get_template_source_loaders s = (Ret chain, s0) ->
        find_template name dirs skip_template None s
        = find_template name dirs skip_template (Some chain) s0
        /\ template_source_loaders
             (snd (find_template name dirs skip_template None s)) = Some chain)
    /\ (forall e,
        get_template_source_loaders s = (Raise e, s0) ->
        find_template name dirs skip_template None s = (Raise e, s0)).
Proof.
  intros name dirs skip_template s s0. split.
  - intros chain H.
    assert (Heq : find_template name dirs skip_template None s
                  = find_template name dirs skip_template (Some chain) s0).
    { unfold find_template, bind, loaders_or_default. rewrite H. reflexivity. }
    split; [exact Heq|]. rewrite Heq.
    apply keeps_find_template. apply (get_template_source_loaders_stores _ _ _ H).
  - intros e H. unfold find_template, bind, loaders_or_default. rewrite H. reflexivity.
Qed.

End Resolver_more.

(** ** The registry *)

Section Registry_more.
Context {T : Types} {C : Collaborators}.

Lemma untouched_ret {A : Type} (a : A) : registry_untouched (ret a).
Proof. intros s. reflexivity. Qed.

Lemma untouched_raise {A : Type} (e : Exn) : registry_untouched (raise (A := A) e).
Proof. intros s. reflexivity. Qed.

Lemma untouched_bind {A B : Type} (m : M State A) (k : A -> M State B) :
  registry_untouched m -> (forall a, registry_untouched (k a)) ->
  registry_untouched (bind m k).
Proof.
  intros Hm Hk s. unfold bind. specialize (Hm s).
  destruct (m s) as [[a|e] s']; simpl in Hm; [|exact Hm].
  rewrite (Hk a s'). exact Hm.
Qed.

Lemma untouched_lift {A : Type} (f : External A) : registry_untouched (lift f).
Proof. intros s. unfold lift. destruct (f (world s)). reflexivity. Qed.

Lemma untouched_tell (e : Event) : registry_untouched (tell e).
Proof. intros s. reflexivity. Qed.

Lemma untouched_external {A : Type} (e : Event) (f : External A) :
  registry_untouched (external e f).
Proof.
  unfold external. apply untouched_bind; [apply untouched_tell|].
  intros _. apply untouched_lift.
Qed.

Lemma untouched_find_template_loader (spec : LoaderSpec) :
  registry_untouched (find_template_loader spec).
Proof.
  unfold find_template_loader. apply untouched_bind.
  - destruct spec as [v|[|l0 rest]];
      [apply untouched_ret|apply untouched_raise|apply untouched_ret].
  - intros [[path|a] args]; [|apply untouched_raise].
    apply untouched_bind; [apply untouched_external|].
    intros imported. apply untouched_bind.
    + destruct imported as [construct|f]; [apply untouched_lift|].
      destruct args; [apply untouched_ret|apply untouched_raise].
    + intros func. destruct (negb (is_usable func)); [|apply untouched_ret].
      apply untouched_bind; [apply untouched_tell|]. intros _. apply untouched_ret.
Qed.

Lemma untouched_resolve_specs (names : list LoaderSpec) :
  forall loaders, registry_untouched (resolve_specs names loaders).
Proof.
  induction names as [|n rest IH]; intros loaders; simpl.
  - apply untouched_ret.
  - apply untouched_bind; [apply untouched_find_template_loader|].
    intros [l|]; apply IH.
Qed.

(** What [find_template_loader] returns when it returns: the reference was
    a string, alone or at the head of a sequence, and it was imported; a
    loader that comes back is a usable loader object; [None] comes back only
    after the warning. *)
Lemma find_template_loader_returns (spec : LoaderSpec) (s s' : State)
    (r : option Loader) :
  find_template_loader spec s = (Ret r, s') ->
  exists path args,
    (spec = Bare (SStr path) \/ spec = Seq (SStr path :: args))
    /\ match r with
       | Some l =>
           usable_object l = true
           /\ events s' = events s ++ [Imported_path path]
       | None => events s' = events s ++ [Imported_path path; Warned path]
       end.
Proof.
  intros H.
  assert (Hgen : forall path args,
             (path0 <- external (Imported_path path) (import_by_path path) ;;
              func <-
                match path0 with
                | LoaderClass construct => lift (construct args)
                | LoaderFunction f =>
                    match args with
                    | _ :: _ => raise (ImproperlyConfigured (msg_function_args path))
                    | [] => ret f
                    end
                end ;;
              if negb (is_usable func)
              then _ <- tell (Warned path) ;; ret None
              else ret (Some (Obj func))) s = (Ret r, s') ->
             match r with
             | Some l =>
                 usable_object l = true
                 /\ events s' = events s ++ [Imported_path path]
             | None => events s' = events s ++ [Imported_path path; Warned path]
             end).
  { intros path args Hrun. unfold bind at 1 in Hrun. rewrite external_run in Hrun.
    destruct (import_by_path path (world s)) as [[imported|e] w]; simpl in Hrun;
      [|discriminate].
    unfold bind at 1 in Hrun.
    assert (Hfunc : forall func s1,
               events s1 = events s ++ [Imported_path path] ->
               (if negb (is_usable func)
                then _ <- tell (Warned path) ;; ret None
                else ret (Some (Obj func))) s1 = (Ret r, s') ->
               match r with
               | Some l =>
                   usable_object l = true
                   /\ events s' = events s ++ [Imported_path path]
               | None => events s' = events s ++ [Imported_path path; Warned path]
               end).
    { intros func s1 Hev Hres. destruct (is_usable func) eqn:Hu; simpl in Hres.
      - unfold ret in Hres. injection Hres as <- <-. split; [|exact Hev].
        unfold usable_object. simpl. exact Hu.
      - unfold bind, tell, ret in Hres. injection Hres as <- <-.
        simpl. rewrite Hev, <- app_assoc. reflexivity. }
    destruct imported as [construct|f].
    - unfold lift in Hrun. simpl in Hrun.
      destruct (construct args w) as [[func|e] w']; [|discriminate].
      refine (Hfunc func _ _ Hrun). reflexivity.
    - destruct args; [|discriminate]. unfold ret at 1 in Hrun.
      refine (Hfunc f _ _ Hrun). reflexivity. }
  unfold find_template_loader in H.
  destruct spec as [[path|a]|[|[path|a] rest]]; try discriminate H.
  - exists path, []. split; [left; reflexivity|]. apply (Hgen path []). exact H.
  - exists path, rest. split; [right; reflexivity|]. apply (Hgen path rest). exact H.
Qed.

Lemma resolve_specs_usable (names : list LoaderSpec) :
  forall loaders s chain s',
    resolve_specs names loaders s = (Ret chain, s') ->
    forallb usable_object loaders = true ->
    forallb usable_object chain = true
    /\ List.length chain <= List.length loaders + List.length names.
Proof.
  induction names as [|n rest IH]; intros loaders s chain s' H Hl; simpl in H.
  - unfold ret in H. injection H as <- <-. split; [exact Hl|simpl; lia].
  - unfold bind at 1 in H.
    destruct (find_template_loader n s) as [[r|e] s1] eqn:E; [|discriminate].
    destruct (find_template_loader_returns _ _ _ _ E) as (path & args & _ & Hr).
    destruct r as [l|].
    + destruct Hr as [Hu _].
      destruct (IH _ _ _ _ H) as [Hall Hlen].
      { rewrite forallb_app, Hl. simpl. rewrite Hu. reflexivity. }
      split; [exact Hall|]. rewrite length_app in Hlen. simpl in *. lia.
    + destruct (IH _ _ _ _ H Hl) as [Hall Hlen]. split; [exact Hall|simpl; lia].
Qed.

(** X5: when the resolution of the setting raises, nothing is stored: the
    registry was uninitialised and stays so, and the next call resolves
    again. *)
Theorem get_template_source_loaders_failure_stores_nothing :
  forall (s s' : State) (e : Exn),
    get_template_source_loaders s = (Raise e, s') ->
    template_source_loaders s = None
    /\ template_source_loaders s' = None
    /\ resolve_specs (TEMPLATE_LOADERS s) [] s = (Raise e, s').
Proof.
  intros s s' e H. unfold get_template_source_loaders in H.
  destruct (template_source_loaders s) as [stored|] eqn:Hs; [discriminate|].
  unfold bind in H.
  pose proof (untouched_resolve_specs (TEMPLATE_LOADERS s) [] s) as Hun.
  destruct (resolve_specs (TEMPLATE_LOADERS s) [] s) as [[loaders|e'] s1];
    [discriminate|].
  injection H as <- <-. simpl in Hun. rewrite Hun, Hs. auto.
Qed.

(** X6: the chain the registry computes holds usable loader objects only,
    at most one per entry of the setting; per entry, [find_template_loader]
    returns a loader only if it is usable and returns [None] only after it
    warned about the entry. *)
Theorem resolved_chain_is_usable :
  (forall spec s s' r,
      find_template_loader spec s = (Ret r, s') ->
      exists path args,
        (spec = Bare (SStr path) \/ spec = Seq (SStr path :: args))
        /\ match r with
           | Some l =>
               usable_object l = true
               /\ events s' = events s ++ [Imported_path path]
           | None => events s' = events s ++ [Imported_path path; Warned path]
           end)
  /\ (forall s s' chain,
      template_source_loaders s = None ->
      get_template_source_loaders s = (Ret chain, s') ->
      forallb usable_object chain = true
      /\ List.length chain <= List.length (TEMPLATE_LOADERS s)).
Proof.
  split; [exact find_template_loader_returns|].
  intros s s' chain Hs H. unfold get_template_source_loaders in H.
  rewrite Hs in H. unfold bind in H.
  destruct (resolve_specs (TEMPLATE_LOADERS s) [] s) as [[loaders|e] s1] eqn:E;
    [|discriminate].
  injection H as <- _.
  destruct (resolve_specs_usable _ _ _ _ _ E eq_refl) as [Hall Hlen].
  split; [exact Hall|exact Hlen].
Qed.

(** X7: the configuration errors of [find_template_loader].  A reference
    that is not a string is refused before anything is imported; an empty
    sequence has no first element; arguments for a function loader are
    refused once the import showed it is a function, whether it is usable or
    not; an exception of the import or of the constructor of a loader class
    comes out as it is. *)
Theorem find_template_loader_refuses :
  (forall a s,
      find_template_loader (Bare (SOther a)) s
      = (Raise (ImproperlyConfigured msg_no_callable), s))
  /\ (forall a rest s,
      find_template_loader (Seq (SOther a :: rest)) s
      = (Raise (ImproperlyConfigured msg_no_callable), s))
  /\ (forall s,
      find_template_loader (Seq []) s = (Raise (OtherError "IndexError"), s))
  /\ (forall path a args f s w,
      import_by_path path (world s) = (Ret (LoaderFunction f), w) ->
      find_template_loader (Seq (SStr path :: a :: args)) s
      = (Raise (ImproperlyConfigured (msg_function_args path)),
         set_world w (log (Imported_path path) s)))
  /\ (forall path args e s w,
      import_by_path path (world s) = (Raise e, w) ->
      find_template_loader (Seq (SStr path :: args)) s
      = (Raise e, set_world w (log (Imported_path path) s))
      /\ find_template_loader (Bare (SStr path)) s
         = (Raise e, set_world w (log (Imported_path path) s)))
  /\ (forall path args construct e s w w',
      import_by_path path (world s) = (Ret (LoaderClass construct), w) ->
      construct args w = (Raise e, w') ->
      find_template_loader (Seq (SStr path :: args)) s
      = (Raise e, set_world w' (log (Imported_path path) s))).
Proof.
  split; [reflexivity|]. split; [reflexivity|]. split; [reflexivity|].
  split; [|split].
  - intros path a args f s w H.
    unfold find_template_loader, external, tell, lift, bind, ret, raise.
    simpl. rewrite H. reflexivity.
  - intros path args e s w H.
    split; unfold find_template_loader, external, tell, lift, bind, ret, raise;
      simpl; rewrite H; reflexivity.
  - intros path args construct e s w w' H Hc.
    unfold find_template_loader, external, tell, lift, bind, ret, raise.
    simpl. rewrite H. simpl. rewrite Hc. reflexivity.
Qed.

End Registry_more.

(** ** Class based loaders *)

Section Base_loader_more.
Context {T : Types} {C : Collaborators}.

Lemma load_template_compiled (self : LoaderObject) (name : string) (dirs : Dirs)
    (skip_template : option Marker) (w w1 w2 : World) (source : string)
    (dn : option string) (t : Template) :
  load_template_source self name dirs w = (Ret (source, dn), w1) ->
  Template_init source
    (make_origin dn (Method self "load_template_source") name dirs)
    (Some name) w1 = (Ret t, w2) ->
  load_template self name dirs skip_template w = (Ret (Compiled t, None), w2).
Proof.
  intros Hsrc Hcomp. unfold load_template, bind at 1. rewrite Hsrc.
  unfold try_except_TemplateDoesNotExist, bind, get_template_from_string.
  rewrite Hcomp. reflexivity.
Qed.

Lemma load_template_source_raised (self : LoaderObject) (name : string)
    (dirs : Dirs) (skip_template : option Marker) (w w1 : World) (e : Exn) :
  load_template_source self name dirs w = (Raise e, w1) ->
  load_template self name dirs skip_template w = (Raise e, w1).
Proof. intros H. unfold load_template, bind at 1. rewrite H. reflexivity. Qed.

(** X8: when the source is found and compiles, [BaseLoader.load_template]
    returns the compiled template with no display name; the compiler was
    handed the origin of the bound method [self.load_template_source].  A
    loader called through [BaseLoader.__call__] makes [find_template] return
    the compiled template with no origin. *)
Theorem load_template_returns_compiled_without_origin :
  forall (self : LoaderObject) (name : string) (dirs : Dirs)
         (skip_template : option Marker) (w w1 w2 : World)
         (source : string) (dn : option string) (t : Template),
    load_template_source self name dirs w = (Ret (source, dn), w1) ->
    Template_init source
      (make_origin dn (Method self "load_template_source") name dirs)
      (Some name) w1 = (Ret t, w2) ->
    load_template self name dirs skip_template w = (Ret (Compiled t, None), w2)
    /\ (forall chain rest s,
        skip_if_same_name name skip_template chain = Obj self :: rest ->
        world s = w ->
        invoke (Obj self) name dirs skip_template w
        = BaseLoader_call self name dirs skip_template w ->
        find_template name dirs skip_template (Some chain) s
        = (Ret (Compiled t, None),
           set_world w2 (log (Invoked (Obj self) name) s))).
Proof.
  intros self name dirs skip_template w w1 w2 source dn t Hsrc Hcomp.
  pose proof (load_template_compiled self name dirs skip_template w w1 w2
                source dn t Hsrc Hcomp) as Hload.
  split; [exact Hload|].
  intros chain rest s Hchain Hw Hcall.
  rewrite (find_template_unfold name dirs skip_template (Some chain) chain s s eq_refl).
  rewrite Hchain.
  rewrite (try_loaders_found name dirs skip_template _ (Obj self) rest s
             (Compiled t) None w2); [reflexivity|].
  rewrite Hw, Hcall. exact Hload.
Qed.

(** X9: what [BaseLoader.load_template] lets through.  An exception of
    [load_template_source], [TemplateDoesNotExist] included, comes out as it
    is and nothing is compiled; an exception of the compiler other than
    [TemplateDoesNotExist] comes out as it is. *)
Theorem load_template_propagates :
  forall (self : LoaderObject) (name : string) (dirs : Dirs)
         (skip_template : option Marker) (w : World),
    (forall e w1,
        load_template_source self name dirs w = (Raise e, w1) ->
        load_template self name dirs skip_template w = (Raise e, w1))
    /\ (forall source dn w1 e w2,
        load_template_source self name dirs w = (Ret (source, dn), w1) ->
        Template_init source
          (make_origin dn (Method self "load_template_source") name dirs)
          (Some name) w1 = (Raise e, w2) ->
        is_TemplateDoesNotExist e = false ->
        load_template self name dirs skip_template w = (Raise e, w2)).
Proof.
  intros self name dirs skip_template w. split.
  - intros e w1 H. apply load_template_source_raised. exact H.
  - intros source dn w1 e w2 Hsrc Hcomp He.
    unfold load_template, bind at 1. rewrite Hsrc.
    unfold try_except_TemplateDoesNotExist, bind, get_template_from_string.
    rewrite Hcomp. destruct e; try reflexivity. discriminate He.
Qed.

(** X10: a class based loader whose class does not provide
    [load_template_source] is not passed over: when its turn comes,
    [find_template] ends with the [NotImplementedError] of [BaseLoader], and
    the loaders after it are not called. *)
Theorem find_template_aborts_on_abstract_loader :
  forall (self : LoaderObject) (name : string) (dirs : Dirs)
         (skip_template : option Marker) (chain pre post : list Loader)
         (s s1 : State),
    skip_if_same_name name skip_template chain = pre ++ Obj self :: post ->
    all_raise_not_found name dirs skip_template pre s = Some s1 ->
    invoke (Obj self) name dirs skip_template (world s1)
    = BaseLoader_call self name dirs skip_template (world s1) ->
    load_template_source self name dirs (world s1)
    = BaseLoader_load_template_source self name dirs (world s1) ->
    find_template name dirs skip_template (Some chain) s
    = (Raise (NotImplementedError msg_not_implemented),
       log (Invoked (Obj self) name) s1)
    /\ events (log (Invoked (Obj self) name) s1)
       = events s ++ map (fun x => Invoked x name) (pre ++ [Obj self]).
Proof.
  intros self name dirs skip_template chain pre post s s1 Hchain Hpre Hcall Hsrc.
  destruct (try_loaders_prefix name dirs skip_template
              (ends_with (loaders_to_try name skip_template chain))
              pre (Obj self :: post) _ _ Hpre) as (Hrun & Hev & _).
  rewrite (find_template_unfold name dirs skip_template (Some chain) chain s s eq_refl).
  rewrite Hchain, Hrun.
  assert (Hinv : invoke (Obj self) name dirs skip_template (world s1)
                 = (Raise (NotImplementedError msg_not_implemented), world s1)).
  { rewrite Hcall. unfold BaseLoader_call.
    apply load_template_source_raised. rewrite Hsrc. reflexivity. }
  rewrite (try_loaders_raised _ _ _ _ _ _ _ _ _ Hinv eq_refl).
  split.
  - reflexivity.
  - simpl. rewrite Hev, map_app, app_assoc. reflexivity.
Qed.

(** X11: the fall back of [BaseLoader.load_template] serves the report of
    the missing template.  When the source of a template compiles to
    [TemplateDoesNotExist] inside the loader, the source comes back raw,
    [get_template] compiles it again with the origin [find_template] made,
    and the [TemplateDoesNotExist] of that compilation, with the compiler's
    message, is what [get_template] raises. *)
Theorem get_template_reports_what_the_compiler_missed :
  forall (self : LoaderObject) (name : string) (dirs : Dirs)
         (skip_template : option Marker) (chain rest : list Loader) (s : State)
         (source : string) (dn : option string) (w1 w2 w3 : World)
         (msg1 msg2 : string),
    template_source_loaders s = Some chain ->
    skip_if_same_name name skip_template chain = Obj self :: rest ->
    invoke (Obj self) name dirs skip_template (world s)
    = BaseLoader_call self name dirs skip_template (world s) ->
    load_template_source self name dirs (world s) = (Ret (source, dn), w1) ->
    Template_init source
      (make_origin dn (Method self "load_template_source") name dirs)
      (Some name) w1 = (Raise (TemplateDoesNotExist msg1), w2) ->
    Template_init source (make_origin dn (Obj self) name dirs) (Some name) w2
    = (Raise (TemplateDoesNotExist msg2), w3) ->
    get_template name dirs skip_template s
    = (Raise (TemplateDoesNotExist msg2),
       set_world w3
         (log (Compiling (Some name)) (log (Invoked (Obj self) name) s))).
Proof.
  intros self name dirs skip_template chain rest s source dn w1 w2 w3 msg1 msg2
         Hstored Hchain Hcall Hsrc Hc1 Hc2.
  assert (Hload : invoke (Obj self) name dirs skip_template (world s)
                  = (Ret (RawSource source, dn), w2)).
  { rewrite Hcall. unfold BaseLoader_call, load_template, bind at 1. rewrite Hsrc.
    unfold try_except_TemplateDoesNotExist, bind, get_template_from_string.
    rewrite Hc1. reflexivity. }
  unfold get_template, bind at 1.
  rewrite (find_template_unfold name dirs skip_template None chain s s
             (get_template_source_loaders_hit s chain Hstored)).
  rewrite Hchain, (try_loaders_found _ _ _ _ _ _ _ _ _ _ Hload).
  rewrite external_run. unfold get_template_from_string. simpl.
  rewrite Hc2. reflexivity.
Qed.

End Base_loader_more.

(** ** The selector *)

Section Selector_more.
Context {T : Types} {C : Collaborators}.

(** X12: [select_template] passes over [TemplateDoesNotExist] only.  When
    a candidate ends with another exception after candidates that were not
    found, that exception leaves [select_template] in the state the
    candidate left, and the candidates after it are not tried. *)
Theorem select_template_propagates_other_errors :
  forall (dirs : Dirs) (skip_template : option Marker) (pre post : list string)
         (n : string) (s s1 s2 : State) (msgs : list string) (e : Exn),
    all_candidates_fail dirs skip_template pre s = Some (msgs, s1) ->
    get_template n dirs skip_template s1 = (Raise e, s2) ->
    is_TemplateDoesNotExist e = false ->
    select_template (pre ++ n :: post) dirs skip_template s = (Raise e, s2).
Proof.
  intros dirs skip_template pre post n s s1 s2 msgs e Hpre Hn He.
  assert (Hloop : select_template (pre ++ n :: post) dirs skip_template s
                  = select_loop dirs skip_template (pre ++ n :: post) [] s).
  { destruct pre; reflexivity. }
  rewrite Hloop.
  rewrite (select_loop_prefix dirs skip_template pre (n :: post) [] [] s msgs s1
             (fun _ => eq_refl) Hpre).
  simpl. unfold try_except_TemplateDoesNotExist. rewrite Hn.
  destruct e; try reflexivity. discriminate He.
Qed.

End Selector_more.

(** ** The skip filter *)

Lemma skip_loop_length (t : option Loader) (chain : list Loader) :
  forall flag,
    List.length (yields (skip_loop t flag chain)) <= List.length chain.
Proof.
  induction chain as [|l rest IH]; intros flag; simpl; [lia|].
  destruct (if flag then Some true
            else never_skip (instance_of (getattr___self__ l))) as [test|];
    simpl; [|lia].
  rewrite length_app.
  specialize (IH (if py_eq_opt (getattr___self__ l) t then true else flag)).
  destruct test; simpl; lia.
Qed.

Lemma skip_loop_never_skip_in (t : option Loader) (chain : list Loader) :
  forall flag l,
    ends_with (skip_loop t flag chain) = None ->
    In l chain -> flagged_never_skip l = true ->
    In (getattr___self__ l) (yields (skip_loop t flag chain)).
Proof.
  induction chain as [|l0 rest IH]; intros flag l Hend Hin Hns; [contradiction|].
  simpl in Hend |- *. rewrite never_skip_unwrapped in Hend |- *.
  destruct (if flag then Some true else never_skip (instance_of l0))
    as [test|] eqn:Htest; [|discriminate Hend].
  simpl in Hend |- *. apply in_or_app. destruct Hin as [<-|Hin].
  - left. unfold flagged_never_skip in Hns.
    destruct flag.
    + injection Htest as <-. left. reflexivity.
    + rewrite Htest in Hns. destruct test; [left; reflexivity|discriminate].
  - right. apply IH; assumption.
Qed.

(** X13: [skip_loaders] never yields more loaders than the chain holds;
    and when its generator ends without an exception, every loader of the
    chain that is flagged never-skip is among the loaders it yielded,
    whatever the marker, present or not. *)
Theorem skip_loaders_keeps_never_skip :
  forall (chain : list Loader) (skip_template : option Marker),
    List.length (yields (skip_loaders chain skip_template)) <= List.length chain
    /\ (ends_with (skip_loaders chain skip_template) = None ->
        forall l,
          In l chain -> flagged_never_skip l = true ->
          In (getattr___self__ l) (yields (skip_loaders chain skip_template))).
Proof.
  intros chain skip_template. rewrite skip_loaders_unfold. split.
  - apply skip_loop_length.
  - intros Hend l Hin Hns. apply skip_loop_never_skip_in; assumption.
Qed.

(** X14: from a non-empty chain in which no loader is flagged never-skip,
    [skip_loaders] yields strictly fewer loaders than the chain holds,
    whatever the marker and however its generator ends. *)
Theorem skip_loaders_strictly_shorter :
  forall (chain : list Loader) (skip_template : option Marker),
    chain <> [] ->
    (forall l, In l chain -> flagged_never_skip l = false) ->
    List.length (yields (skip_loaders chain skip_template)) < List.length chain.
Proof.
  intros chain skip_template Hne Hns. rewrite skip_loaders_unfold.
  destruct chain as [|l rest]; [contradiction|]. simpl.
  rewrite never_skip_unwrapped.
  pose proof (Hns l (or_introl eq_refl)) as Hl. unfold flagged_never_skip in Hl.
  destruct (never_skip (instance_of l)) as [b|]; simpl; [|lia].
  destruct b; [discriminate|]. simpl.
  pose proof (skip_loop_length
                (option_map getattr___self__ (getattr_loader skip_template)) rest
                (if py_eq_opt (getattr___self__ l)
                      (option_map getattr___self__ (getattr_loader skip_template))
                 then true else false)).
  lia.
Qed.



Section Skip_more.
Context {T : Types} {C : Collaborators}.


End Skip_more.

(** ** The further properties on the concrete installations *)

Lemma find_template_origin_records_request_witness :
  loadname (mkOrigin "/app/a.html" (Obj Demo.app) "a.html" None) = "a.html"
  /\ origin_dirs (mkOrigin "/app/a.html" (Obj Demo.app) "a.html" None) = None
  /\ display_name (mkOrigin "/app/a.html" (Obj Demo.app) "a.html" None) <> ""
  /\ In (origin_loader (mkOrigin "/app/a.html" (Obj Demo.app) "a.html" None))
        (skip_if_same_name "a.html" None [Obj Demo.fs; Obj Demo.app]).
Proof.
  refine (find_template_origin_records_request "a.html" None None
            (Some [Obj Demo.fs; Obj Demo.app]) [Obj Demo.fs; Obj Demo.app]
            Demo.fresh Demo.fresh
            (mkState None Demo.settings 2
               [Invoked (Obj Demo.fs) "a.html"; Invoked (Obj Demo.app) "a.html"])
            (RawSource "<p>a.html</p>")
            (mkOrigin "/app/a.html" (Obj Demo.app) "a.html" None) _ _);
    reflexivity.
Defined.

Lemma find_template_not_found_means_all_failed_witness :
  "a.html" = "a.html"
  /\ all_raise_not_found "a.html" None None
       (skip_if_same_name "a.html" None [Obj Demo.fs; Obj Demo.fs_twin]) Demo.fresh
     = Some (mkState None Demo.settings 2
               [Invoked (Obj Demo.fs) "a.html"; Invoked (Obj Demo.fs_twin) "a.html"])
  /\ events (mkState None Demo.settings 2
               [Invoked (Obj Demo.fs) "a.html"; Invoked (Obj Demo.fs_twin) "a.html"])
     = events Demo.fresh
       ++ map (fun x => Invoked x "a.html")
            (skip_if_same_name "a.html" None [Obj Demo.fs; Obj Demo.fs_twin]).
Proof.
  refine (find_template_not_found_means_all_failed "a.html" None None
            (Some [Obj Demo.fs; Obj Demo.fs_twin]) [Obj Demo.fs; Obj Demo.fs_twin]
            Demo.fresh Demo.fresh
            (mkState None Demo.settings 2
               [Invoked (Obj Demo.fs) "a.html"; Invoked (Obj Demo.fs_twin) "a.html"])
            "a.html" _ _); reflexivity.
Defined.

Lemma find_template_calls_a_prefix_witness :
  exists k,
    events (snd (find_template "a.html" None None
                   (Some [Obj Demo.fs; Obj Demo.db; Obj Demo.app]) Demo.fresh))
    = events Demo.fresh
      ++ map (fun x => Invoked x "a.html")
           (firstn k (skip_if_same_name "a.html" None
                        [Obj Demo.fs; Obj Demo.db; Obj Demo.app])).
Proof.
  refine (find_template_calls_a_prefix "a.html" None None
            (Some [Obj Demo.fs; Obj Demo.db; Obj Demo.app])
            [Obj Demo.fs; Obj Demo.db; Obj Demo.app] Demo.fresh Demo.fresh _);
    reflexivity.
Defined.

Lemma find_template_default_chain_witness :
  (find_template "a.html" None None None Demo.fresh
   = find_template "a.html" None None (Some [Obj Demo.fs; Obj Demo.app]) Demo.resolved
   /\ template_source_loaders (snd (find_template "a.html" None None None Demo.fresh))
      = Some [Obj Demo.fs; Obj Demo.app])
  /\ find_template "a.html" None None None Demo_pages.broken_settings
     = (Raise (ImproperlyConfigured msg_no_callable),
        mkState None [Bare (SStr "loaders.filesystem.Loader"); Bare (SOther 1)] 2
          [Imported_path "loaders.filesystem.Loader"]).
Proof.
  split.
  - refine (proj1 (find_template_default_chain "a.html" None None
                     Demo.fresh Demo.resolved)
              [Obj Demo.fs; Obj Demo.app] _); reflexivity.
  - refine (proj2 (find_template_default_chain "a.html" None None
                     Demo_pages.broken_settings
                     (mkState None
                        [Bare (SStr "loaders.filesystem.Loader"); Bare (SOther 1)] 2
                        [Imported_path "loaders.filesystem.Loader"]))
              (ImproperlyConfigured msg_no_callable) _); reflexivity.
Defined.

Lemma get_template_source_loaders_failure_stores_nothing_witness :
  template_source_loaders Demo_pages.broken_settings = None
  /\ template_source_loaders
       (mkState None [Bare (SStr "loaders.filesystem.Loader"); Bare (SOther 1)] 2
          [Imported_path "loaders.filesystem.Loader"]) = None
  /\ resolve_specs (TEMPLATE_LOADERS Demo_pages.broken_settings) []
       Demo_pages.broken_settings
     = (Raise (ImproperlyConfigured msg_no_callable),
        mkState None [Bare (SStr "loaders.filesystem.Loader"); Bare (SOther 1)] 2
          [Imported_path "loaders.filesystem.Loader"]).
Proof.
  refine (get_template_source_loaders_failure_stores_nothing
            Demo_pages.broken_settings
            (mkState None [Bare (SStr "loaders.filesystem.Loader"); Bare (SOther 1)] 2
               [Imported_path "loaders.filesystem.Loader"])
            (ImproperlyConfigured msg_no_callable) _); reflexivity.
Defined.

Lemma resolved_chain_is_usable_witness :
  (exists path args,
      (Seq [SStr "loaders.eggs.Loader"; SOther 3] = Bare (SStr path)
       \/ Seq [SStr "loaders.eggs.Loader"; SOther 3] = Seq (SStr path :: args))
      /\ events (mkState None Demo.settings 2
                   [Imported_path "loaders.eggs.Loader"; Warned "loaders.eggs.Loader"])
         = events Demo.fresh ++ [Imported_path path; Warned path])
  /\ forallb usable_object [Obj Demo.fs; Obj Demo.app] = true
  /\ List.length [Obj Demo.fs; Obj Demo.app]
     <= List.length (TEMPLATE_LOADERS Demo.fresh).
Proof.
  split.
  - refine (proj1 resolved_chain_is_usable
              (Seq [SStr "loaders.eggs.Loader"; SOther 3]) Demo.fresh
              (mkState None Demo.settings 2
                 [Imported_path "loaders.eggs.Loader"; Warned "loaders.eggs.Loader"])
              None _); reflexivity.
  - refine (proj2 resolved_chain_is_usable Demo.fresh Demo.resolved
              [Obj Demo.fs; Obj Demo.app] _ _); reflexivity.
Defined.

Lemma find_template_loader_refuses_witness :
  find_template_loader (Seq [SStr "legacy.load_template_source"; SOther 1]) Demo.fresh
  = (Raise (ImproperlyConfigured (msg_function_args "legacy.load_template_source")),
     mkState None Demo.settings 1 [Imported_path "legacy.load_template_source"])
  /\ find_template_loader (Bare (SStr "nope")) Demo.fresh
     = (Raise (ImproperlyConfigured "nope"),
        mkState None Demo.settings 1 [Imported_path "nope"])
  /\ find_template_loader (C := Demo_pages.strict)
       (Seq [SStr "loaders.db.Loader"; SOther 5]) Demo.fresh
     = (Raise (OtherError "TypeError"),
        mkState None Demo.settings 2 [Imported_path "loaders.db.Loader"]).
Proof.
  split; [|split].
  - refine (proj1 (proj2 (proj2 (proj2 find_template_loader_refuses)))
              "legacy.load_template_source" (SOther 1) [] Demo.app Demo.fresh 1 _);
      reflexivity.
  - refine (proj2 (proj1 (proj2 (proj2 (proj2 (proj2 find_template_loader_refuses))))
                     "nope" [] (ImproperlyConfigured "nope") Demo.fresh 1 _));
      reflexivity.
  - refine (proj2 (proj2 (proj2 (proj2 (proj2
              (find_template_loader_refuses (C := Demo_pages.strict))))))
              "loaders.db.Loader" [SOther 5] Demo_pages.refusing_constructor
              (OtherError "TypeError") Demo.fresh 1 2 _ _); reflexivity.
Defined.

Lemma load_template_returns_compiled_without_origin_witness :
  load_template (C := Demo_pages.installation) Demo_pages.pages "home.html" None None 0
  = (Ret (Compiled "compiled <h1>home.html</h1>", None), 2)
  /\ find_template (C := Demo_pages.installation) "home.html" None None
       (Some [Obj Demo_pages.pages; Obj Demo.app]) Demo.fresh
     = (Ret (Compiled "compiled <h1>home.html</h1>", None),
        mkState None Demo.settings 2 [Invoked (Obj Demo_pages.pages) "home.html"]).
Proof.
  split.
  - refine (proj1 (load_template_returns_compiled_without_origin
                     (C := Demo_pages.installation) Demo_pages.pages "home.html"
                     None None 0 1 2 "<h1>home.html</h1>" (Some "/pages/home.html")
                     "compiled <h1>home.html</h1>" _ _)); reflexivity.
  - refine (proj2 (load_template_returns_compiled_without_origin
                     (C := Demo_pages.installation) Demo_pages.pages "home.html"
                     None None 0 1 2 "<h1>home.html</h1>" (Some "/pages/home.html")
                     "compiled <h1>home.html</h1>" _ _)
              [Obj Demo_pages.pages; Obj Demo.app] [Obj Demo.app] Demo.fresh _ _ _);
      reflexivity.
Defined.

Lemma load_template_propagates_witness :
  load_template (C := Demo_abstract.installation) Demo_abstract.bare "a.html"
    None None 0
  = (Raise (NotImplementedError msg_not_implemented), 0)
  /\ load_template (C := Demo_pages.installation) Demo_pages.pages "broken.html"
       None None 0
     = (Raise (OtherError "TemplateSyntaxError"), 2).
Proof.
  split.
  - refine (proj1 (load_template_propagates (C := Demo_abstract.installation)
                     Demo_abstract.bare "a.html" None None 0)
              (NotImplementedError msg_not_implemented) 0 _); reflexivity.
  - refine (proj2 (load_template_propagates (C := Demo_pages.installation)
                     Demo_pages.pages "broken.html" None None 0)
              "<h1>broken.html</h1>" (Some "/pages/broken.html") 1
              (OtherError "TemplateSyntaxError") 2 _ _ _); reflexivity.
Defined.

Lemma find_template_aborts_on_abstract_loader_witness :
  find_template (C := Demo_abstract.installation) "a.html" None None
    (Some [Obj Demo.fs; Obj Demo_abstract.bare; Obj Demo.app]) Demo.fresh
  = (Raise (NotImplementedError msg_not_implemented),
     mkState None Demo.settings 1
       [Invoked (Obj Demo.fs) "a.html"; Invoked (Obj Demo_abstract.bare) "a.html"]).
Proof.
  refine (proj1 (find_template_aborts_on_abstract_loader
                   (C := Demo_abstract.installation) Demo_abstract.bare "a.html"
                   None None [Obj Demo.fs; Obj Demo_abstract.bare; Obj Demo.app]
                   [Obj Demo.fs] [Obj Demo.app] Demo.fresh
                   (mkState None Demo.settings 1 [Invoked (Obj Demo.fs) "a.html"])
                   _ _ _ _)); reflexivity.
Defined.

Lemma get_template_reports_what_the_compiler_missed_witness :
  get_template (C := Demo.with_base) "page.html" None None (Demo.warm [Obj Demo.base])
  = (Raise (TemplateDoesNotExist "missing.html"),
     mkState (Some [Obj Demo.base]) Demo.settings 3
       [Invoked (Obj Demo.base) "page.html"; Compiling (Some "page.html")]).
Proof.
  refine (get_template_reports_what_the_compiler_missed (C := Demo.with_base)
            Demo.base "page.html" None None [Obj Demo.base] []
            (Demo.warm [Obj Demo.base]) Demo.extends_missing
            (Some "/base/page.html") 1 2 3 "missing.html" "missing.html"
            _ _ _ _ _ _); reflexivity.
Defined.

Lemma select_template_propagates_other_errors_witness :
  select_template (["a.html"] ++ "b.html" :: ["c.html"]) None
    (Some (mkMarker (Some "a.html") (Some (Obj Demo.db))))
    (Demo.warm [Obj Demo.fs; Obj Demo.db])
  = (Raise (OtherError "IOError"),
     mkState (Some [Obj Demo.fs; Obj Demo.db]) Demo.settings 2
       [Invoked (Obj Demo.fs) "b.html"; Invoked (Obj Demo.db) "b.html"]).
Proof.
  refine (select_template_propagates_other_errors None
            (Some (mkMarker (Some "a.html") (Some (Obj Demo.db))))
            ["a.html"] ["c.html"] "b.html"
            (Demo.warm [Obj Demo.fs; Obj Demo.db])
            (Demo.warm [Obj Demo.fs; Obj Demo.db])
            (mkState (Some [Obj Demo.fs; Obj Demo.db]) Demo.settings 2
               [Invoked (Obj Demo.fs) "b.html"; Invoked (Obj Demo.db) "b.html"])
            ["a.html"] (OtherError "IOError") _ _ _); reflexivity.
Defined.

Lemma skip_loaders_keeps_never_skip_witness :
  ends_with (skip_loaders
               [Obj Demo.fs; Method Demo.cached "load_template"; Obj Demo.app] None)
  = None
  /\ flagged_never_skip (Method Demo.cached "load_template") = true
  /\ In (getattr___self__ (Method Demo.cached "load_template"))
        (yields (skip_loaders
                   [Obj Demo.fs; Method Demo.cached "load_template"; Obj Demo.app]
                   None)).
Proof.
  split; [reflexivity|]. split; [reflexivity|].
  refine (proj2 (skip_loaders_keeps_never_skip
                   [Obj Demo.fs; Method Demo.cached "load_template"; Obj Demo.app] None)
            _ (Method Demo.cached "load_template") _ _).
  - reflexivity.
  - right. left. reflexivity.
  - reflexivity.
Defined.

Lemma skip_loaders_strictly_shorter_witness :
  List.length (yields (skip_loaders [Obj Demo.fs; Obj Demo.legacy; Obj Demo.app]
                         (Some (mkMarker (Some "a.html") (Some (Obj Demo.fs))))))
  < List.length [Obj Demo.fs; Obj Demo.legacy; Obj Demo.app].
Proof.
  refine (skip_loaders_strictly_shorter [Obj Demo.fs; Obj Demo.legacy; Obj Demo.app]
            (Some (mkMarker (Some "a.html") (Some (Obj Demo.fs)))) _ _).
  - discriminate.
  - intros l [<-|[<-|[<-|[]]]]; reflexivity.
Defined.

